(** * fix_padding.py: the sprite-atlas offset corrector

    A shallow embedding of [public/assets/images/fix_padding.py] and the
    properties of it that the specification states.

    The script reads [collectables.json], adds [OFFSET] to the [x] and [y]
    of every frame box, writes [collectables_padded.json] and prints one
    line.  Python values are an inductive type, exceptions are a sum type,
    the file system and standard output are threaded through a small
    state-and-exception monad, and the [json] module (which is not part of
    the repository) and the encoding of standard output are an interface
    of the interpreter that the development is parametric in: both can
    fail, [json.dump] after part of the output was written and [print] when
    the stream cannot encode the line.

    The objects that [json.load] builds form a tree: no container is
    reachable along two paths.  The in-place updates of the loop are
    therefore rendered as functional updates along the path from the root,
    each one stored back into the container it was read from.  Text is kept
    as UTF-8 bytes, in files as in [str] values. *)

From Stdlib Require Import ZArith List Ascii String Bool Lia.
From Stdlib Require Import Floats.SpecFloat.
From stdpp Require Import base option list strings gmap.

Set Warnings "-register-all".
Local Open Scope string_scope.
Local Open Scope Z_scope.

(** ** Python values, as [json.load] builds them *)

Module Py.

(** Binary64, the format of a Python [float]. *)
Definition prec : Z := 53.
Definition emax : Z := 1024.

(** [json.load] yields [dict], [list], [str], [int], [float], [bool] and
    [None].  A [dict] keeps its keys in insertion order, so it is an
    association list; an [int] is unbounded. *)
Inductive value : Type :=
  | VNone
  | VBool (b : bool)
  | VInt (n : Z)
  | VFloat (f : spec_float)
  | VStr (s : string)
  | VList (l : list value)
  | VDict (d : list (string * value)).

Inductive exn : Type :=
  | FileNotFoundError (path : string)
  | UnicodeDecodeError
  | JSONDecodeError
  | KeyError (key : string)
  | TypeError
  | AttributeError
  | OverflowError
  | ValueError
  | UnicodeEncodeError
  | UnsupportedOperation.

Inductive result (A : Type) : Type :=
  | Ok (a : A)
  | Raise (e : exn).
Arguments Ok {A} a.
Arguments Raise {A} e.

#[global] Instance result_ret : MRet result := fun _ a => Ok a.
#[global] Instance result_bind : MBind result := fun _ _ f m =>
  match m with
  | Ok a => f a
  | Raise e => Raise e
  end.

(** *** Dictionaries *)

Abbreviation dict := (list (string * value)).

(** [d.get(k)]: the value stored under [k], if any. *)
Fixpoint dict_get (d : dict) (k : string) : option value :=
  match d with
  | [] => None
  | (k', v) :: rest => if String.eqb k k' then Some v else dict_get rest k
  end.

(** [d[k] = v]: an existing key keeps its position, a new key goes last. *)
Fixpoint dict_set (d : dict) (k : string) (v : value) : dict :=
  match d with
  | [] => [(k, v)]
  | (k', v') :: rest =>
      if String.eqb k k' then (k', v) :: rest else (k', v') :: dict_set rest k v
  end.

(** [o[k]] with a string subscript: only a [dict] accepts one ([list] and
    [str] want integer indices, the other types are not subscriptable). *)
Definition getitem (o : value) (k : string) : result value :=
  match o with
  | VDict d =>
      match dict_get d k with
      | Some v => Ok v
      | None => Raise (KeyError k)
      end
  | _ => Raise TypeError
  end.

(** [o[k] = v] with a string subscript; the object is updated in place, which
    the embedding renders by returning the updated object. *)
Definition setitem (o : value) (k : string) (v : value) : result value :=
  match o with
  | VDict d => Ok (VDict (dict_set d k v))
  | _ => Raise TypeError
  end.

(** [o.values()], kept together with the keys so that the loop can put each
    (mutated) value back where it came from. *)
Definition items (o : value) : result dict :=
  match o with
  | VDict d => Ok d
  | _ => Raise AttributeError
  end.

(** *** Arithmetic *)

(** [float(n)] for an [int]: nearest binary64, [OverflowError] beyond it. *)
Definition float_of_int (n : Z) : result spec_float :=
  match binary_normalize prec emax n 0 false with
  | S754_infinity _ => Raise OverflowError
  | f => Ok f
  end.

(** [v + n] for an [int] right operand [n], which is what [v += n] runs for
    every type without an in-place addition of its own: [int] adds exactly,
    [bool] is an [int] subclass, [float] converts [n] and adds in binary64;
    [str], [None], [dict] and [list] (whose [+=] wants an iterable) raise
    [TypeError]. *)
Definition iadd_int (v : value) (n : Z) : result value :=
  match v with
  | VInt m => Ok (VInt (m + n))
  | VBool b => Ok (VInt (Z.b2z b + n))
  | VFloat f => g ← float_of_int n; Ok (VFloat (SFadd prec emax f g))
  | VNone | VStr _ | VList _ | VDict _ => Raise TypeError
  end.

(** [o[k] += n]: read, add, store back. *)
Definition iadd_item (o : value) (k : string) (n : Z) : result value :=
  v ← getitem o k;
  v' ← iadd_int v n;
  setitem o k v'.

(** [for v in d.values(): body(v)] where [body] mutates [v] in place: every
    value is replaced by what [body] leaves of it, in iteration order; the
    first exception ends the loop. *)
Fixpoint for_values (body : value → result value) (d : dict) : result dict :=
  match d with
  | [] => Ok []
  | (k, v) :: rest =>
      v' ← body v;
      rest' ← for_values body rest;
      Ok ((k, v') :: rest')
  end.

End Py.
Export Py.

(** ** The script *)

(** [OFFSET = 2] *)
Definition OFFSET : Z := 2.

(** The body of the loop.  [frame] is the object stored in
    [frame_data["frame"]], not a copy: the last line makes the two updates
    visible through [frame_data], as the shared reference does in Python. *)
Definition loop_body (frame_data : value) : result value :=
  frame ← getitem frame_data "frame";
  frame ← iadd_item frame "x" OFFSET;
  frame ← iadd_item frame "y" OFFSET;
  setitem frame_data "frame" frame.

(** Lines 8 to 11: the loop over [data["frames"].values()].  The frames
    dictionary is the object stored in [data], so the result is [data] with
    its ["frames"] replaced by the mutated dictionary. *)
Definition fix_padding (data : value) : result value :=
  frames ← getitem data "frames";
  entries ← items frames;
  entries ← for_values loop_body entries;
  setitem data "frames" (VDict entries).

(** ** The world the script runs in *)

Module IO.

Inductive open_mode : Type := ModeR | ModeW.

(** An open text file: what [open(path, mode, encoding=...)] was given. *)
Record handle : Type := mkHandle {
  h_path : string;
  h_mode : open_mode;
  h_encoding : string }.

(** What a run does to its environment, in order. *)
Inductive event : Type :=
  | EvOpen (f : handle)
  | EvRead (path : string)
  | EvWrite (path text : string)
  | EvPrint (line : string).

(** The working directory (relative path to file content, as bytes), what
    was printed so far, the command line and the environment variables, and
    the log of the effects so far.  Permissions and disk space are not
    modelled: opening an existing file, creating a file and writing to it
    succeed. *)
Record World : Type := mkWorld {
  files : gmap string string;
  stdout : list string;
  argv : list string;
  environ : gmap string string;
  events : list event }.

Definition io (A : Type) : Type := World → result A * World.

#[global] Instance io_ret : MRet io := fun _ a w => (Ok a, w).
#[global] Instance io_bind : MBind io := fun _ _ f m w =>
  match m w with
  | (Ok a, w') => f a w'
  | (Raise e, w') => (Raise e, w')
  end.

Definition lift {A : Type} (r : result A) : io A := fun w => (r, w).

Definition log (ev : event) (w : World) : World :=
  mkWorld (files w) (stdout w) (argv w) (environ w) (events w ++ [ev]).

Definition set_file (path text : string) (w : World) : World :=
  mkWorld (<[path := text]> (files w)) (stdout w) (argv w) (environ w) (events w).

(** [open(path, mode, encoding=encoding)]: reading needs the file to exist,
    writing creates it or empties it. *)
Definition open_ (path : string) (mode : open_mode) (encoding : string) : io handle :=
  fun w =>
    let f := mkHandle path mode encoding in
    match mode with
    | ModeR =>
        match files w !! path with
        | Some _ => (Ok f, log (EvOpen f) w)
        | None => (Raise (FileNotFoundError path), w)
        end
    | ModeW => (Ok f, log (EvOpen f) (set_file path "" w))
    end.

(** [f.read()]: the whole content. *)
Definition read (f : handle) : io string :=
  fun w =>
    match h_mode f, files w !! h_path f with
    | ModeR, Some text => (Ok text, log (EvRead (h_path f)) w)
    | ModeR, None => (Raise (FileNotFoundError (h_path f)), w)
    | ModeW, _ => (Raise UnsupportedOperation, w)
    end.

(** [f.write(text)]: appended to what the file holds. *)
Definition write (f : handle) (text : string) : io unit :=
  fun w =>
    match h_mode f with
    | ModeW =>
        let old := default "" (files w !! h_path f) in
        (Ok tt, log (EvWrite (h_path f) text) (set_file (h_path f) (old ++ text) w))
    | ModeR => (Raise UnsupportedOperation, w)
    end.

(** [os.environ], as the interpreter found it. *)
Definition getenv : io (gmap string string) := fun w => (Ok (environ w), w).

(** A line has reached standard output. *)
Definition emit (line : string) (w : World) : World :=
  log (EvPrint line)
    (mkWorld (files w) (stdout w ++ [line]) (argv w) (environ w) (events w)).

End IO.
Export IO.

(** ** The interpreter

    The [json] module and standard output belong to the Python
    distribution, not to the repository.  The script is verified against
    their interface, in which everything may depend on the environment
    variables the interpreter was started with:
    - [json_loads] turns the bytes of a file into a value or raises
      ([UnicodeDecodeError] when the bytes are not UTF-8, [JSONDecodeError]
      when the text is not JSON, [ValueError] for an integer beyond the
      digit limit);
    - [json_dumps] renders a value with a given indentation, chunk by
      chunk: it answers the text of the chunks it got out and, when
      rendering one raised (an integer beyond the digit limit, a nesting
      too deep), that exception;
    - [stdout_error] says whether writing a line to standard output raises
      ([UnicodeEncodeError] when the encoding of the stream has no place
      for one of its characters), in which case nothing of the line gets
      out. *)
Class Interpreter : Type := {
  json_loads : gmap string string → string → result value;
  json_dumps : gmap string string → value → nat → string * option exn;
  stdout_error : gmap string string → string → option exn }.

Section Script.

Context {py : Interpreter}.

(** [json.load(f)] *)
Definition json_load (f : handle) : io value :=
  text ← read f;
  env ← getenv;
  lift (json_loads env text).

(** [json.dump(data, f, indent=indent)]: the chunks are written as they
    come, so an exception leaves the ones before it in the file. *)
Definition json_dump (data : value) (f : handle) (indent : nat) : io unit :=
  env ← getenv;
  let '(text, err) := json_dumps env data indent in
  write f text;;
  match err with
  | Some e => lift (Raise e)
  | None => mret tt
  end.

(** [print(line)] *)
Definition print (line : string) : io unit :=
  fun w =>
    match stdout_error (environ w) line with
    | Some e => (Raise e, w)
    | None => (Ok tt, emit line w)
    end.

Definition message : string := "✅ JSON corrigido (padding apenas nas bordas)".

(** The whole script, top to bottom. *)
Definition main : io unit :=
  f ← open_ "collectables.json" ModeR "utf-8";
  data ← json_load f;
  data ← lift (fix_padding data);
  f ← open_ "collectables_padded.json" ModeW "utf-8";
  json_dump data f 2;;
  print message.

End Script.

(** ** A reference interpreter

    An executable instance of the interface, written after the documented
    behaviour of CPython 3.12 with the default options of [json] and a
    UTF-8 locale: enough of it to run the script on concrete files, with
    the limit on the digits of an integer ([PYTHONINTMAXSTRDIGITS]) and the
    choice of the encoding of standard output ([PYTHONIOENCODING]).  The
    depth of nesting is not limited.  No theorem about the script depends
    on it; they hold for every instance. *)

Module CPython.

(** *** Numbers *)

Definition digit_char (d : Z) : ascii := ascii_of_N (Z.to_N (48 + d)).

Fixpoint digits_fuel (fuel : nat) (n : Z) (acc : string) : string :=
  match fuel with
  | O => acc
  | S fuel =>
      let acc := String (digit_char (n mod 10)) acc in
      if n <? 10 then acc else digits_fuel fuel (n / 10) acc
  end.

(** The last [k] decimal digits of [n], zeros included. *)
Fixpoint padded (k : nat) (n : Z) (acc : string) : string :=
  match k with
  | O => acc
  | S k => padded k (n / 10) (String (digit_char (n mod 10)) acc)
  end.

(** Nine digits at a time, from the right. *)
Fixpoint blocks_fuel (fuel : nat) (n : Z) (acc : string) : string :=
  match fuel with
  | O => acc
  | S fuel =>
      let '(q, r) := Z.div_eucl n 1000000000 in
      if q =? 0 then digits_fuel 10 r acc else blocks_fuel fuel q (padded 9 r acc)
  end.

(** Decimal digits of a natural number. *)
Definition digits (n : Z) : string :=
  blocks_fuel (S (Z.to_nat (Z.log2 n / 29))) n "".

(** [repr] of an [int]. *)
Definition int_repr (n : Z) : string :=
  if n <? 0 then "-" ++ digits (- n) else digits n.

(** The binary64 nearest to [d * 10 ^ e], for [0 <= d].  A negative [e]
    divides with [2200] extra bits and keeps the remainder as a sticky bit,
    which rounds as the exact quotient does. *)
Definition float_of_decimal (neg : bool) (d e : Z) : spec_float :=
  let nd := Z.of_nat (String.length (digits d)) in
  if d =? 0 then S754_zero neg
  else if 400 <? e + nd then S754_infinity neg
  else if e + nd <? -400 then S754_zero neg
  else
    let sgn (m : Z) := if neg then - m else m in
    if 0 <=? e then binary_normalize prec emax (sgn (d * 10 ^ e)) 0 neg
    else
      let den := 10 ^ (- e) in
      let num := d * 2 ^ 2200 in
      let q := num / den in
      let sticky := if num mod den =? 0 then 0 else 1 in
      binary_normalize prec emax (sgn (2 * q + sticky)) (-2201) neg.

Definition sf_eqb (a b : spec_float) : bool :=
  match a, b with
  | S754_finite s m e, S754_finite s' m' e' =>
      Bool.eqb s s' && Pos.eqb m m' && Z.eqb e e'
  | _, _ => false
  end.

(** Does [num / den] reach [10 ^ p]? *)
Definition reaches_pow10 (num den p : Z) : bool :=
  if 0 <=? p then den * 10 ^ p <=? num else den <=? num * 10 ^ (- p).

Fixpoint decade_fuel (fuel : nat) (num den p : Z) : Z :=
  match fuel with
  | O => p
  | S fuel =>
      if reaches_pow10 num den (p + 1) then decade_fuel fuel num den (p + 1) else p
  end.

(** The [p] with [10 ^ p <= num / den < 10 ^ (p + 1)]. *)
Definition decade (num den : Z) : Z :=
  decade_fuel 8 num den ((Z.log2 num - Z.log2 den) * 30103 / 100000 - 2).

(** The [n]-digit decimal [c * 10 ^ (p - n + 1)] nearest to [m * 2 ^ e] that
    reads back as the same float, if there is one. *)
Definition shortest_at (m : positive) (e : Z) (num den p n : Z) : option (Z * Z) :=
  let k := p - n + 1 in
  let N := if k <? 0 then num * 10 ^ (- k) else num in
  let D := if k <? 0 then den else den * 10 ^ k in
  let lo := N / D in
  let r := N mod D in
  let back c := sf_eqb (float_of_decimal false c k) (S754_finite false m e) in
  let hi := lo + 1 in
  if r =? 0 then Some (lo, k)
  else
    match back lo, back hi with
    | true, true =>
        if 2 * r <? D then Some (lo, k)
        else if D <? 2 * r then Some (hi, k)
        else if Z.even lo then Some (lo, k) else Some (hi, k)
    | true, false => Some (lo, k)
    | false, true => Some (hi, k)
    | false, false => None
    end.

Fixpoint shortest_fuel (fuel : nat) (m : positive) (e : Z) (num den p n : Z) : Z * Z :=
  match fuel with
  | O => (Z.pos m, e)
  | S fuel =>
      match shortest_at m e num den p n with
      | Some ck => ck
      | None => shortest_fuel fuel m e num den p (n + 1)
      end
  end.

Fixpoint strip_zeros (fuel : nat) (c k : Z) : Z * Z :=
  match fuel with
  | O => (c, k)
  | S fuel => if (c mod 10 =? 0) && (0 <? c) then strip_zeros fuel (c / 10) (k + 1) else (c, k)
  end.

Fixpoint zeros (n : nat) : string :=
  match n with O => "" | S n => String "0" (zeros n) end.

Fixpoint take_str (n : nat) (s : string) : string :=
  match n, s with
  | S n, String c r => String c (take_str n r)
  | _, _ => ""
  end.

Fixpoint drop_str (n : nat) (s : string) : string :=
  match n, s with
  | S n, String c r => drop_str n r
  | _, _ => s
  end.

(** [repr] of a positive finite [float]: the shortest digits that read back,
    in positional notation from [0.0001] up to [1e16] and in exponent
    notation outside. *)
Definition finite_repr (m : positive) (e : Z) : string :=
  let num := if 0 <=? e then Z.pos m * 2 ^ e else Z.pos m in
  let den := if 0 <=? e then 1 else 2 ^ (- e) in
  let p := decade num den in
  let '(c, k) := shortest_fuel 17 m e num den p 1 in
  let '(c, k) := strip_zeros 20 c k in
  let ds := digits c in
  let nd := Z.of_nat (String.length ds) in
  let decpt := nd + k in
  if (decpt <=? -4) || (16 <? decpt) then
    let x := decpt - 1 in
    let mant :=
      match ds with
      | String c1 "" => ds
      | String c1 r => String c1 ("." ++ r)
      | "" => ds
      end in
    let xs := digits (Z.abs x) in
    mant ++ "e" ++ (if x <? 0 then "-" else "+")
         ++ (if Z.abs x <? 10 then "0" else "") ++ xs
  else if decpt <=? 0 then "0." ++ zeros (Z.to_nat (- decpt)) ++ ds
  else if nd <=? decpt then ds ++ zeros (Z.to_nat (decpt - nd)) ++ ".0"
  else take_str (Z.to_nat decpt) ds ++ "." ++ drop_str (Z.to_nat decpt) ds.

(** A [float] as [json.dumps] writes it. *)
Definition float_repr (f : spec_float) : string :=
  match f with
  | S754_nan => "NaN"
  | S754_infinity false => "Infinity"
  | S754_infinity true => "-Infinity"
  | S754_zero false => "0.0"
  | S754_zero true => "-0.0"
  | S754_finite s m e => (if s then "-" else "") ++ finite_repr m e
  end.

(** *** Strings *)

Definition byte_of (c : ascii) : Z := Z.of_N (N_of_ascii c).
Definition char_of (n : Z) : ascii := ascii_of_N (Z.to_N n).
Definition str1 (n : Z) : string := String (char_of n) "".

(** Payload of a UTF-8 continuation byte. *)
Definition cont (c : ascii) : option Z :=
  let n := byte_of c in
  if (128 <=? n) && (n <? 192) then Some (n - 128) else None.

(** UTF-8 bytes to code points; [strict] refuses surrogates, as the codec
    does when a file is read. *)
Fixpoint utf8_decode (strict : bool) (s : string) : option (list Z) :=
  match s with
  | "" => Some []
  | String c r =>
      let n := byte_of c in
      if n <? 128 then cons n <$> utf8_decode strict r
      else if n <? 192 then None
      else if n <? 224 then
        match r with
        | String c1 r1 =>
            a ← cont c1;
            let cp := (n - 192) * 64 + a in
            if cp <? 128 then None else cons cp <$> utf8_decode strict r1
        | _ => None
        end
      else if n <? 240 then
        match r with
        | String c1 (String c2 r2) =>
            a ← cont c1;
            b ← cont c2;
            let cp := ((n - 224) * 64 + a) * 64 + b in
            if (cp <? 2048) || (strict && (55296 <=? cp) && (cp <? 57344)) then None
            else cons cp <$> utf8_decode strict r2
        | _ => None
        end
      else if n <? 248 then
        match r with
        | String c1 (String c2 (String c3 r3)) =>
            a ← cont c1;
            b ← cont c2;
            c ← cont c3;
            let cp := (((n - 240) * 64 + a) * 64 + b) * 64 + c in
            if (cp <? 65536) || (1114111 <? cp) then None
            else cons cp <$> utf8_decode strict r3
        | _ => None
        end
      else None
  end.

Definition utf8_encode (cp : Z) : string :=
  if cp <? 128 then str1 cp
  else if cp <? 2048 then str1 (192 + cp / 64) ++ str1 (128 + cp mod 64)
  else if cp <? 65536 then
    str1 (224 + cp / 4096) ++ str1 (128 + cp / 64 mod 64) ++ str1 (128 + cp mod 64)
  else
    str1 (240 + cp / 262144) ++ str1 (128 + cp / 4096 mod 64)
      ++ str1 (128 + cp / 64 mod 64) ++ str1 (128 + cp mod 64).

Definition hex_digit (d : Z) : string :=
  if d <? 10 then str1 (48 + d) else str1 (87 + d).

Definition dquote : string := str1 34.
Definition backslash : string := str1 92.

Definition u_escape (cp : Z) : string :=
  backslash ++ "u" ++ hex_digit (cp / 4096) ++ hex_digit (cp / 256 mod 16)
    ++ hex_digit (cp / 16 mod 16) ++ hex_digit (cp mod 16).

(** One code point inside a string literal, with [ensure_ascii]. *)
Definition escape_cp (cp : Z) : string :=
  if cp =? 34 then backslash ++ dquote
  else if cp =? 92 then backslash ++ backslash
  else if cp =? 10 then backslash ++ "n"
  else if cp =? 13 then backslash ++ "r"
  else if cp =? 9 then backslash ++ "t"
  else if cp =? 8 then backslash ++ "b"
  else if cp =? 12 then backslash ++ "f"
  else if (32 <=? cp) && (cp <=? 126) then str1 cp
  else if cp <? 65536 then u_escape cp
  else
    let v := cp - 65536 in
    u_escape (55296 + v / 1024) ++ u_escape (56320 + v mod 1024).

Fixpoint bytes_of (s : string) : list Z :=
  match s with
  | "" => []
  | String c r => byte_of c :: bytes_of r
  end.

Definition encode_str (s : string) : string :=
  let cps := default (bytes_of s) (utf8_decode false s) in
  dquote ++ fold_right (fun cp acc => escape_cp cp ++ acc) dquote cps.

(** *** The limit on the digits of an integer

    [int(text)] and [repr(n)] raise [ValueError] beyond it.  The default is
    [4300]; [PYTHONINTMAXSTRDIGITS] sets it, [0] lifting it ([None] here).
    The interpreter does not start on any other value below [640] or on
    one that is not a number, so no script runs under those: they are
    given the default here. *)

Definition all_digits (s : string) : bool :=
  (fix go (s : string) : bool :=
     match s with
     | "" => true
     | String c r => (48 <=? byte_of c) && (byte_of c <=? 57) && go r
     end) s.

Fixpoint decimal_value (s : string) (acc : Z) : Z :=
  match s with
  | String c r => decimal_value r (10 * acc + (byte_of c - 48))
  | "" => acc
  end.

Definition int_max_str_digits (env : gmap string string) : option Z :=
  match env !! "PYTHONINTMAXSTRDIGITS" with
  | Some (String c r as s) =>
      if all_digits s then
        let n := decimal_value s 0 in
        if n =? 0 then None else if 640 <=? n then Some n else Some 4300
      else Some 4300
  | _ => Some 4300
  end.

Definition within (limit : option Z) (ndigits : nat) : bool :=
  match limit with
  | Some l => Z.of_nat ndigits <=? l
  | None => true
  end.

(** Has [n] no more decimal digits than the limit?  A number of fewer than
    [3 * l] bits is below [10 ^ l]. *)
Definition short_enough (limit : option Z) (n : Z) : bool :=
  match limit with
  | Some l => if Z.log2 (Z.abs n) <? 3 * l then true else Z.abs n <? 10 ^ l
  | None => true
  end.

(** *** [json.dumps(v, indent=ind)], chunk by chunk *)

Fixpoint spaces (n : nat) : string :=
  match n with O => "" | S n => String " " (spaces n) end.

Definition newline_indent (ind level : nat) : string :=
  str1 10 ++ spaces (ind * level).

(** What the encoder yields: a piece of text, or the exception that
    rendering the next piece raised. *)
Inductive chunk : Type :=
  | Text (s : string)
  | Fails (e : exn).

(** A value that is not a container, after the text [buf]; [None] for a
    container.  An integer too long for [repr] takes [buf] down with it. *)
Definition atom (limit : option Z) (buf : string) (v : value) : option chunk :=
  match v with
  | VNone => Some (Text (buf ++ "null"))
  | VBool true => Some (Text (buf ++ "true"))
  | VBool false => Some (Text (buf ++ "false"))
  | VInt n =>
      if short_enough limit n
      then Some (Text (buf ++ int_repr n))
      else Some (Fails ValueError)
  | VFloat f => Some (Text (buf ++ float_repr f))
  | VStr s => Some (Text (buf ++ encode_str s))
  | VList _ | VDict _ => None
  end.

(** The chunks of a value.  An array joins the bracket or the separator
    with the element that follows when that is not a container; an object
    yields the brace, the separators, the key and the colon on their own. *)
Fixpoint chunks (limit : option Z) (ind level : nat) (v : value) {struct v} : list chunk :=
  match v with
  | VList [] => [Text "[]"]
  | VList (x :: xs) =>
      let nl := newline_indent ind (S level) in
      let item (buf : string) (y : value) (inner : list chunk) : list chunk :=
        match atom limit buf y with
        | Some c => [c]
        | None => Text buf :: inner
        end in
      (item ("[" ++ nl)%string x (chunks limit ind (S level) x)
       ++ (fix rest (l : list value) : list chunk :=
             match l with
             | [] => []
             | y :: ys => item ("," ++ nl)%string y (chunks limit ind (S level) y) ++ rest ys
             end) xs
       ++ [Text (newline_indent ind level); Text "]"])%list
  | VDict [] => [Text "{}"]
  | VDict ((k, x) :: xs) =>
      let nl := newline_indent ind (S level) in
      let item (key : string) (y : value) (inner : list chunk) : list chunk :=
        (Text (encode_str key) :: Text ": "
         :: match atom limit "" y with
            | Some c => [c]
            | None => inner
            end)%list in
      (Text "{" :: Text nl :: item k x (chunks limit ind (S level) x)
       ++ (fix rest (l : dict) : list chunk :=
             match l with
             | [] => []
             | (k', y) :: ys =>
                 Text ("," ++ nl)%string :: item k' y (chunks limit ind (S level) y) ++ rest ys
             end) xs
       ++ [Text (newline_indent ind level); Text "}"])%list
  | _ =>
      match atom limit "" v with
      | Some c => [c]
      | None => []
      end
  end.

(** The text of the chunks before the first failure, and that failure. *)
Fixpoint flush (cs : list chunk) : string * option exn :=
  match cs with
  | [] => ("", None)
  | Text s :: rest => let '(t, e) := flush rest in (s ++ t, e)
  | Fails e :: _ => ("", Some e)
  end.

Definition dumps (env : gmap string string) (v : value) (indent : nat)
    : string * option exn :=
  flush (chunks (int_max_str_digits env) indent 0 v).

(** *** [json.loads] *)

Definition is_ws (c : ascii) : bool :=
  let n := byte_of c in (n =? 32) || (n =? 9) || (n =? 10) || (n =? 13).

Fixpoint skip_ws (s : string) : string :=
  match s with
  | String c r => if is_ws c then skip_ws r else s
  | "" => ""
  end.

Definition is_digit (c : ascii) : bool :=
  let n := byte_of c in (48 <=? n) && (n <=? 57).

(** The longest prefix of digits, and what follows it. *)
Fixpoint span_digits (s : string) : string * string :=
  match s with
  | String c r =>
      if is_digit c then let '(ds, rest) := span_digits r in (String c ds, rest)
      else ("", s)
  | "" => ("", "")
  end.

Fixpoint digits_value (s : string) (acc : Z) : Z :=
  match s with
  | String c r => digits_value r (10 * acc + (byte_of c - 48))
  | "" => acc
  end.

Definition hex_value (c : ascii) : option Z :=
  let n := byte_of c in
  if (48 <=? n) && (n <=? 57) then Some (n - 48)
  else if (97 <=? n) && (n <=? 102) then Some (n - 87)
  else if (65 <=? n) && (n <=? 70) then Some (n - 55)
  else None.

Definition hex4 (s : string) : option (Z * string) :=
  match s with
  | String a (String b (String c (String d r))) =>
      a ← hex_value a;
      b ← hex_value b;
      c ← hex_value c;
      d ← hex_value d;
      Some (((a * 16 + b) * 16 + c) * 16 + d, r)
  | _ => None
  end.

(** The low half of a surrogate pair written as a second [\u] escape. *)
Definition low_surrogate (s : string) : option (Z * string) :=
  match s with
  | String b (String u r) =>
      if (byte_of b =? 92) && (byte_of u =? 117) then
        '(lo, r') ← hex4 r;
        if (56320 <=? lo) && (lo <? 57344) then Some (lo, r') else None
      else None
  | _ => None
  end.

(** The inside of a string literal up to its closing quote, unescaped. *)
Fixpoint scan_string (fuel : nat) (s : string) : option (string * string) :=
  match fuel, s with
  | S fuel, String c r =>
      let n := byte_of c in
      if n =? 34 then Some ("", r)
      else if n =? 92 then
        match r with
        | String e r1 =>
            let k := byte_of e in
            let plain (ch : Z) :=
              '(t, rest) ← scan_string fuel r1; Some (String (char_of ch) t, rest) in
            if k =? 34 then plain 34
            else if k =? 92 then plain 92
            else if k =? 47 then plain 47
            else if k =? 98 then plain 8
            else if k =? 102 then plain 12
            else if k =? 110 then plain 10
            else if k =? 114 then plain 13
            else if k =? 116 then plain 9
            else if k =? 117 then
              '(hi, r2) ← hex4 r1;
              let '(cp, r3) :=
                match low_surrogate r2 with
                | Some (lo, r3) =>
                    if (55296 <=? hi) && (hi <? 56320)
                    then (65536 + (hi - 55296) * 1024 + (lo - 56320), r3)
                    else (hi, r2)
                | None => (hi, r2)
                end in
              '(t, rest) ← scan_string fuel r3; Some (utf8_encode cp ++ t, rest)
            else None
        | "" => None
        end
      else if n <? 32 then None
      else '(t, rest) ← scan_string fuel r; Some (String c t, rest)
  | _, _ => None
  end.

Fixpoint strip_prefix (p s : string) : option string :=
  match p, s with
  | "", _ => Some s
  | String a p', String b s' => if Ascii.eqb a b then strip_prefix p' s' else None
  | _, "" => None
  end.

Definition syntax {A : Type} (o : option A) : result A :=
  match o with
  | Some a => Ok a
  | None => Raise JSONDecodeError
  end.

(** A number: an [int] unless it has a fraction or an exponent. *)
Definition parse_number (limit : option Z) (s : string) : result (value * string) :=
  let '(neg, s1) :=
    match strip_prefix "-" s with
    | Some r => (true, r)
    | None => (false, s)
    end in
  let '(ds, r) := span_digits s1 in
  match ds with
  | "" =>
      if neg then
        r' ← syntax (strip_prefix "Infinity" r); Ok (VFloat (S754_infinity true), r')
      else Raise JSONDecodeError
  | String c0 ds' =>
      let '(ip, r) := if byte_of c0 =? 48 then ("0", ds' ++ r) else (ds, r) in
      let '(fs, r) :=
        match strip_prefix "." r with
        | Some r1 =>
            let '(fs, r2) := span_digits r1 in
            match fs with "" => ("", r) | _ => (fs, r2) end
        | None => ("", r)
        end in
      let '(ex, r) :=
        match r with
        | String e r1 =>
            if (byte_of e =? 101) || (byte_of e =? 69) then
              let '(eneg, r2) :=
                match r1 with
                | String sg r2 =>
                    if byte_of sg =? 45 then (true, r2)
                    else if byte_of sg =? 43 then (false, r2)
                    else (false, r1)
                | "" => (false, r1)
                end in
              let '(es, r3) := span_digits r2 in
              match es with
              | "" => (None, r)
              | _ => (Some (if eneg then - digits_value es 0 else digits_value es 0), r3)
              end
            else (None, r)
        | "" => (None, r)
        end in
      match fs, ex with
      | "", None =>
          if within limit (String.length ip) then
            let n := digits_value ip 0 in
            Ok (VInt (if neg then - n else n), r)
          else Raise ValueError
      | _, _ =>
          let e := default 0 ex - Z.of_nat (String.length fs) in
          Ok (VFloat (float_of_decimal neg (digits_value (ip ++ fs) 0) e), r)
      end
  end.

Definition parse_atom (limit : option Z) (s : string) : result (value * string) :=
  match strip_prefix "null" s with Some r => Ok (VNone, r) | None =>
  match strip_prefix "true" s with Some r => Ok (VBool true, r) | None =>
  match strip_prefix "false" s with Some r => Ok (VBool false, r) | None =>
  match strip_prefix "NaN" s with Some r => Ok (VFloat S754_nan, r) | None =>
  match strip_prefix "Infinity" s with Some r => Ok (VFloat (S754_infinity false), r) | None =>
  parse_number limit s
  end end end end end.

(** A value at the head of [s] (no leading white space), and the rest.  A key
    that comes twice keeps its first place and its last value, as building a
    [dict] from the pairs does. *)
Fixpoint parse_value (limit : option Z) (fuel : nat) (s : string)
    : result (value * string) :=
  match fuel, s with
  | S fuel, String c r =>
      let n := byte_of c in
      if n =? 123 then
        match strip_prefix "}" (skip_ws r) with
        | Some r1 => Ok (VDict [], r1)
        | None => parse_members limit fuel (skip_ws r) []
        end
      else if n =? 91 then
        match strip_prefix "]" (skip_ws r) with
        | Some r1 => Ok (VList [], r1)
        | None => parse_elements limit fuel (skip_ws r) []
        end
      else if n =? 34 then
        '(t, r1) ← syntax (scan_string (S (String.length r)) r); Ok (VStr t, r1)
      else parse_atom limit s
  | _, _ => Raise JSONDecodeError
  end
with parse_members (limit : option Z) (fuel : nat) (s : string) (acc : dict)
    : result (value * string) :=
  match fuel with
  | S fuel =>
      r ← syntax (strip_prefix dquote s);
      '(k, r1) ← syntax (scan_string (S (String.length r)) r);
      r2 ← syntax (strip_prefix ":" (skip_ws r1));
      '(v, r3) ← parse_value limit fuel (skip_ws r2);
      let acc := dict_set acc k v in
      match strip_prefix "," (skip_ws r3) with
      | Some r4 => parse_members limit fuel (skip_ws r4) acc
      | None => r4 ← syntax (strip_prefix "}" (skip_ws r3)); Ok (VDict acc, r4)
      end
  | O => Raise JSONDecodeError
  end
with parse_elements (limit : option Z) (fuel : nat) (s : string) (acc : list value)
    : result (value * string) :=
  match fuel with
  | S fuel =>
      '(v, r1) ← parse_value limit fuel s;
      let acc := (acc ++ [v])%list in
      match strip_prefix "," (skip_ws r1) with
      | Some r2 => parse_elements limit fuel (skip_ws r2) acc
      | None => r2 ← syntax (strip_prefix "]" (skip_ws r1)); Ok (VList acc, r2)
      end
  | O => Raise JSONDecodeError
  end.

Definition loads (env : gmap string string) (s : string) : result value :=
  match utf8_decode true s with
  | None => Raise UnicodeDecodeError
  | Some _ =>
      '(v, r) ← parse_value (int_max_str_digits env) (S (String.length s)) (skip_ws s);
      match skip_ws r with
      | "" => Ok v
      | _ => Raise JSONDecodeError
      end
  end.

(** *** Standard output

    [PYTHONIOENCODING] is [encoding:errors], either part optional; without
    it the stream is UTF-8.  Only the [strict] handler raises.  UTF
    encodings take every character, Latin-1 the first 256, and the other
    encodings are taken on their ASCII range. *)

Definition lower (c : ascii) : ascii :=
  let n := byte_of c in
  if (65 <=? n) && (n <=? 90) then char_of (n + 32) else c.

Fixpoint lowercase (s : string) : string :=
  match s with
  | "" => ""
  | String c r => String (lower c) (lowercase r)
  end.

(** The part before the first colon, and the part after it. *)
Fixpoint split_colon (s : string) : string * string :=
  match s with
  | "" => ("", "")
  | String c r =>
      if byte_of c =? 58 then ("", r)
      else let '(a, b) := split_colon r in (String c a, b)
  end.

(** The highest code point the encoding has a place for, if it has a
    highest one. *)
Definition repertoire (encoding : string) : option Z :=
  let name := lowercase encoding in
  if (name =? "")%string then None
  else if String.prefix "utf" name then None
  else if (name =? "latin-1")%string || (name =? "latin1")%string
          || (name =? "iso-8859-1")%string || (name =? "iso8859-1")%string
  then Some 255
  else Some 127.

Definition stdout_raises (env : gmap string string) (line : string) : option exn :=
  let '(encoding, errors) := split_colon (default "" (env !! "PYTHONIOENCODING")) in
  if (errors =? "")%string || (lowercase errors =? "strict")%string then
    match repertoire encoding with
    | None => None
    | Some top =>
        let cps := default (bytes_of line) (utf8_decode false line) in
        if forallb (fun cp => cp <=? top) cps then None else Some UnicodeEncodeError
    end
  else None.

#[export] Instance python : Interpreter :=
  {| json_loads := loads; json_dumps := dumps; stdout_error := stdout_raises |}.

End CPython.

(** ** The vocabulary of the specification *)

Module Atlas.

(** A JSON number, as [json.load] reads one. *)
Definition is_number (v : value) : bool :=
  match v with
  | VInt _ | VFloat _ => true
  | _ => false
  end.

(** What [+= OFFSET] accepts: numbers, and booleans (an [int] subclass). *)
Definition addable (v : value) : bool :=
  match v with
  | VInt _ | VFloat _ | VBool _ => true
  | _ => false
  end.

(** A frame box: an object with [x] and [y] that pass [ok]. *)
Definition box_ok (ok : value → bool) (frame : value) : bool :=
  match frame with
  | VDict b =>
      match dict_get b "x", dict_get b "y" with
      | Some x, Some y => ok x && ok y
      | _, _ => false
      end
  | _ => false
  end.

(** A frame entry: an object with a nested ["frame"] box. *)
Definition entry_ok (ok : value → bool) (entry : value) : bool :=
  match entry with
  | VDict d =>
      match dict_get d "frame" with
      | Some frame => box_ok ok frame
      | None => false
      end
  | _ => false
  end.

(** A document: an object whose ["frames"] maps every id to a frame entry. *)
Definition atlas_ok (ok : value → bool) (data : value) : bool :=
  match data with
  | VDict d =>
      match dict_get d "frames" with
      | Some (VDict entries) => forallb (fun kv => entry_ok ok kv.2) entries
      | _ => false
      end
  | _ => false
  end.

(** The valid Atlas Document of the specification: [x] and [y] numeric. *)
Definition valid_atlas : value → bool := atlas_ok is_number.

(** The documents the loop gets through. *)
Definition fixable : value → bool := atlas_ok addable.

(** The frames of a document, in order. *)
Definition frames_of (data : value) : option dict :=
  match data with
  | VDict d =>
      match dict_get d "frames" with
      | Some (VDict entries) => Some entries
      | _ => None
      end
  | _ => None
  end.

(** [entry["frame"][c]] *)
Definition coord (c : string) (entry : value) : option value :=
  match entry with
  | VDict d =>
      match dict_get d "frame" with
      | Some (VDict b) => dict_get b c
      | _ => None
      end
  | _ => None
  end.

(** [v + k] for a number [v]: exact on an [int], binary64 on a [float]. *)
Definition plus (k : Z) (v : value) : option value :=
  match v with
  | VInt n => Some (VInt (n + k))
  | VFloat f =>
      match float_of_int k with
      | Ok g => Some (VFloat (SFadd prec emax f g))
      | Raise _ => None
      end
  | _ => None
  end.

(** Coordinate [c] of [entry'] is coordinate [c] of [entry] plus [k]. *)
Definition shifted (k : Z) (c : string) (entry entry' : value) : Prop :=
  ∃ v v', coord c entry = Some v ∧ plus k v = Some v' ∧ coord c entry' = Some v'.

(** An integer coordinate [c] of [entry] is, in [entry'], exactly [k] more. *)
Definition int_shifted (k : Z) (c : string) (entry entry' : value) : Prop :=
  ∀ n, coord c entry = Some (VInt n) → coord c entry' = Some (VInt (n + k)).

(** Coordinate [c] of [entry''] is coordinate [c] of [entry] plus [k], plus
    [k] again. *)
Definition shifted_twice (k : Z) (c : string) (entry entry'' : value) : Prop :=
  ∃ v v' v'',
    coord c entry = Some v ∧ plus k v = Some v' ∧ plus k v' = Some v'' ∧
    coord c entry'' = Some v''.

(** An integer coordinate [c] of [entry] is not, in [entry'], [k] more. *)
Definition int_not_shifted (k : Z) (c : string) (entry entry' : value) : Prop :=
  ∀ n, coord c entry = Some (VInt n) → coord c entry' ≠ Some (VInt (n + k)).

(** What two corrections in a row make of a frame entry. *)
Definition fixed_twice (entry entry'' : value) : Prop :=
  shifted_twice 2 "x" entry entry'' ∧ shifted_twice 2 "y" entry entry'' ∧
  int_shifted 4 "x" entry entry'' ∧ int_shifted 4 "y" entry entry'' ∧
  int_not_shifted 2 "x" entry entry'' ∧ int_not_shifted 2 "y" entry entry''.

(** Two dictionaries with the same keys in the same order and the same
    values, except perhaps under the keys listed in [changed]. *)
Definition keeps (changed : list string) (d d' : dict) : Prop :=
  Forall2 (fun a b => a.1 = b.1 ∧ (a.1 ∉ changed → a.2 = b.2)) d d'.

Definition box_kept (frame frame' : value) : Prop :=
  ∃ b b', frame = VDict b ∧ frame' = VDict b' ∧ keeps ["x"; "y"] b b'.

Definition entry_kept (entry entry' : value) : Prop :=
  ∃ d d' frame frame',
    entry = VDict d ∧ entry' = VDict d' ∧ keeps ["frame"] d d' ∧
    dict_get d "frame" = Some frame ∧ dict_get d' "frame" = Some frame' ∧
    box_kept frame frame'.

(** [data'] is [data] but for the [x] and [y] of its frame boxes. *)
Definition atlas_kept (data data' : value) : Prop :=
  ∃ d d' entries entries',
    data = VDict d ∧ data' = VDict d' ∧ keeps ["frames"] d d' ∧
    dict_get d "frames" = Some (VDict entries) ∧
    dict_get d' "frames" = Some (VDict entries') ∧
    Forall2 (fun a b => a.1 = b.1 ∧ entry_kept a.2 b.2) entries entries'.

End Atlas.
Export Atlas.

Section Runs.

Context {py : Interpreter}.

(** Does the input of a run hold a document that passes [ok]? *)
Definition admits (ok : value → bool) (w : World) : bool :=
  match files w !! "collectables.json" with
  | Some text =>
      match json_loads (environ w) text with
      | Ok data => atlas_ok ok data
      | Raise _ => false
      end
  | None => false
  end.

Definition in_file : handle := mkHandle "collectables.json" ModeR "utf-8".
Definition out_file : handle := mkHandle "collectables_padded.json" ModeW "utf-8".

(** The world once the input was opened and read. *)
Definition after_read (w : World) : World :=
  log (EvRead "collectables.json") (log (EvOpen in_file) w).

(** The world once the output was opened and [text] written to it. *)
Definition after_write (text : string) (w : World) : World :=
  mkWorld (<["collectables_padded.json" := text]> (files w))
    (stdout w) (argv w) (environ w)
    (events w ++ [EvOpen in_file; EvRead "collectables.json"; EvOpen out_file;
                  EvWrite "collectables_padded.json" text]).

(** The world at the end of a run that wrote [text] and printed. *)
Definition after_run (text : string) (w : World) : World :=
  mkWorld (<["collectables_padded.json" := text]> (files w))
    (stdout w ++ [message]) (argv w) (environ w)
    (events w ++ [EvOpen in_file; EvRead "collectables.json"; EvOpen out_file;
                  EvWrite "collectables_padded.json" text; EvPrint message]).

(** How a run ends once the loop has left [data']: with the exception of
    [json.dump] if it raises, else with that of [print] if it raises, else
    normally. *)
Definition ending (env : gmap string string) (data' : value) : result unit :=
  match (json_dumps env data' 2).2 with
  | Some e => Raise e
  | None =>
      match stdout_error env message with
      | Some e => Raise e
      | None => Ok ()
      end
  end.

(** The runs in which every step goes through. *)
Definition completes (w : World) : bool :=
  match files w !! "collectables.json" with
  | Some text =>
      match json_loads (environ w) text with
      | Ok data =>
          match fix_padding data with
          | Ok data' =>
              match ending (environ w) data' with
              | Ok _ => true
              | Raise _ => false
              end
          | Raise _ => false
          end
      | Raise _ => false
      end
  | None => false
  end.



(** What a run added to the log of effects. *)
Definition done_by (w w' : World) : list event :=
  drop (length (events w)) (events w').

(** The second run of the specification: the output of the first one is
    copied over the input. *)
Definition feed_back (w : World) : World :=
  match files w !! "collectables_padded.json" with
  | Some text => set_file "collectables.json" text w
  | None => w
  end.

End Runs.

(** ** Further vocabulary *)

Module Shapes.

Definition is_int (v : value) : bool :=
  match v with
  | VInt _ => true
  | _ => false
  end.

(** A document whose coordinates are all integers. *)
Definition int_atlas : value → bool := atlas_ok is_int.

(** A boolean coordinate [c] of [entry] is, in [entry'], the integer it
    stands for plus [k]. *)
Definition bool_shifted (k : Z) (c : string) (entry entry' : value) : Prop :=
  ∀ b, coord c entry = Some (VBool b) → coord c entry' = Some (VInt (Z.b2z b + k)).




(** The loop run [n] times, each time on what the time before left. *)
Fixpoint fix_padding_n (n : nat) (data : value) : result value :=
  match n with
  | O => Ok data
  | S n => data ← fix_padding data; fix_padding_n n data
  end.

(** The exceptions the loop can end in. *)
Definition loop_errors : list exn :=
  [TypeError; AttributeError; KeyError "frames"; KeyError "frame"; KeyError "x"; KeyError "y"].

End Shapes.
Export Shapes.

(** ** Sample documents and worlds *)

Module Samples.

(** [2 ^ 54], where consecutive floats are [4] apart. *)
Definition f2p54 : spec_float := S754_finite false 4503599627370496 2.

Definition box (x y : value) : value :=
  VDict [("x", x); ("y", y); ("w", VInt 32); ("h", VInt 32)].

(** Two frames with integer coordinates and extra fields at every level. *)
Definition atlas : value :=
  VDict [("frames",
          VDict [("coin.png", VDict [("frame", box (VInt 0) (VInt 34));
                                     ("rotated", VBool false)]);
                 ("gem.png", VDict [("frame", box (VInt (-3)) (VInt (10 ^ 20)))])]);
         ("meta", VDict [("image", VStr "collectables.png"); ("scale", VStr "1")])].

(** [atlas] once corrected. *)
Definition atlas_fixed : value :=
  VDict [("frames",
          VDict [("coin.png", VDict [("frame", box (VInt 2) (VInt 36));
                                     ("rotated", VBool false)]);
                 ("gem.png", VDict [("frame", box (VInt (-1)) (VInt (10 ^ 20 + 2)))])]);
         ("meta", VDict [("image", VStr "collectables.png"); ("scale", VStr "1")])].

(** No frames at all. *)
Definition empty_atlas : value :=
  VDict [("frames", VDict []); ("meta", VDict [("scale", VStr "1")])].

(** A frame whose [x] is the JSON literal [true]. *)
Definition bool_atlas : value :=
  VDict [("frames", VDict [("coin.png", VDict [("frame", box (VBool true) (VInt 34))])])].

(** A well-formed entry followed by one without [y]. *)
Definition mixed_atlas : value :=
  VDict [("frames",
          VDict [("coin.png", VDict [("frame", box (VInt 0) (VInt 34))]);
                 ("gem.png", VDict [("frame", VDict [("x", VInt 5); ("w", VInt 16)])])])].

(** A frame at [x = 18014398509481984.0]. *)
Definition far_atlas : value :=
  VDict [("frames", VDict [("far.png", VDict [("frame", box (VFloat f2p54) (VInt 0))])])].

(** The next float after [2 ^ 54], which is [2 ^ 54 + 4]. *)
Definition f2p54_next : spec_float := S754_finite false 4503599627370497 2.

Definition far_entry (x y : value) : value := VDict [("frame", box x y)].

(** [bool_atlas] once corrected: [True + 2] is [3]. *)
Definition bool_atlas_fixed : value :=
  VDict [("frames", VDict [("coin.png", VDict [("frame", box (VInt 3) (VInt 36))])])].

(** [far_atlas] corrected twice: [2 ^ 54 + 2] rounds back to [2 ^ 54]. *)
Definition far_atlas_twice : value :=
  VDict [("frames", VDict [("far.png", far_entry (VFloat f2p54) (VInt 4))])].


Definition quoted (s : string) : string := CPython.dquote ++ s ++ CPython.dquote.

Fixpoint nines (n : nat) : string :=
  match n with O => "" | S n => String "9" (nines n) end.

(** A frame whose [x] has [4300] digits, the most the interpreter reads
    and writes by default, followed by a document-level field. *)
Definition long_atlas : value :=
  VDict [("frames",
          VDict [("far.png", VDict [("frame", VDict [("x", VInt (10 ^ 4300 - 1));
                                                     ("y", VInt 0)])])]);
         ("meta", VStr "kept")].

Definition long_text : string :=
  "{" ++ quoted "frames" ++ ": {" ++ quoted "far.png" ++ ": {" ++ quoted "frame" ++ ": {"
  ++ quoted "x" ++ ": " ++ nines 4300 ++ ", " ++ quoted "y" ++ ": 0}}}, "
  ++ quoted "meta" ++ ": " ++ quoted "kept" ++ "}".

(** What [json.dump] gets out of [long_atlas] corrected, before the [x]
    that has become too long. *)
Definition long_output : string :=
  "{" ++ CPython.str1 10
  ++ "  " ++ quoted "frames" ++ ": {" ++ CPython.str1 10
  ++ "    " ++ quoted "far.png" ++ ": {" ++ CPython.str1 10
  ++ "      " ++ quoted "frame" ++ ": {" ++ CPython.str1 10
  ++ "        " ++ quoted "x" ++ ": ".

(** A working directory holding only the input file. *)
Definition world_of (text : string) : World :=
  mkWorld {[ "collectables.json" := text ]} [] [] ∅ [].

(** The same, with a standard output that takes ASCII only. *)
Definition ascii_world_of (text : string) : World :=
  mkWorld {[ "collectables.json" := text ]} [] [] {[ "PYTHONIOENCODING" := "ascii" ]} [].

(** The same input, next to a stale output file, with arguments and an
    environment variable set. *)
Definition busy_world_of (text : string) : World :=
  mkWorld (<[ "collectables_padded.json" := "stale" ]> {[ "collectables.json" := text ]})
    ["earlier line"] ["fix_padding.py"; "--offset"; "5"] {[ "OFFSET" := "5" ]} [].

Definition empty_dir : World := mkWorld ∅ [] [] ∅ [].

Definition text_of (data : value) : string := (CPython.dumps ∅ data 2).1.

(** A run under the reference interpreter. *)
Definition run (w : World) : result unit * World := main (py := CPython.python) w.

(** How a run ended, what the output file holds and what was printed. *)
Definition summary (r : result unit * World)
    : result unit * option string * list string :=
  (r.1, files r.2 !! "collectables_padded.json", stdout r.2).

End Samples.

(** ** Dictionaries: reading after writing *)

Section DictFacts.

Implicit Types (d : dict) (k : string) (v : value).

Lemma dict_get_set_eq d k v : dict_get (dict_set d k v) k = Some v.
Proof.
  induction d as [|[k' v'] d IH]; simpl.
  - by rewrite String.eqb_refl.
  - destruct (String.eqb k k') eqn:E; simpl; rewrite E; done.
Qed.

Lemma dict_get_set_ne d k k' v :
  k ≠ k' → dict_get (dict_set d k v) k' = dict_get d k'.
Proof.
  intros Hne. induction d as [|[k0 v0] d IH]; simpl.
  - destruct (String.eqb k' k) eqn:E; [|done].
    apply String.eqb_eq in E. congruence.
  - destruct (String.eqb k k0) eqn:E; simpl; [|by rewrite IH].
    apply String.eqb_eq in E. subst k0.
    destruct (String.eqb k' k) eqn:E'; [|done].
    apply String.eqb_eq in E'. congruence.
Qed.

(** Storing what is already there changes nothing. *)
Lemma dict_set_same d k v : dict_get d k = Some v → dict_set d k v = d.
Proof.
  induction d as [|[k' v'] d IH]; simpl; [done|].
  destruct (String.eqb k k') eqn:E.
  - by intros [= ->].
  - intros Hd. by rewrite IH.
Qed.

Lemma keeps_refl changed d : keeps changed d d.
Proof. unfold keeps. induction d; constructor; auto. Qed.

(** Storing under a key that is present keeps every key in place and every
    other value as it was. *)
Lemma dict_set_keeps d k v0 v :
  dict_get d k = Some v0 → keeps [k] d (dict_set d k v).
Proof.
  unfold keeps. induction d as [|[k' v'] d IH]; simpl; [done|].
  destruct (String.eqb k k') eqn:E.
  - intros _. apply String.eqb_eq in E. subst k'. constructor.
    + split; [done|]. simpl. intros Hn. exfalso. apply Hn. by left.
    + apply keeps_refl.
  - intros Hd. constructor; [done|]. by apply IH.
Qed.

Lemma keeps_trans changed d1 d2 d3 :
  keeps changed d1 d2 → keeps changed d2 d3 → keeps changed d1 d3.
Proof.
  unfold keeps. intros H12. revert d3.
  induction H12 as [|a b l1 l2 [Hk Hv] _ IH]; intros d3 H23; inversion H23; subst.
  - constructor.
  - constructor; [|by apply IH].
    destruct H1 as [Hk' Hv']. split; [congruence|].
    intros Hn. rewrite Hv by done. apply Hv'. by rewrite <- Hk.
Qed.

Lemma keeps_mono changed changed' d d' :
  changed ⊆ changed' → keeps changed d d' → keeps changed' d d'.
Proof.
  unfold keeps. intros Hsub Hkeep. eapply Forall2_impl; [exact Hkeep|].
  intros a b [Hk Hv]. split; [done|]. intros Hn. apply Hv. intros Hin. by apply Hn, Hsub.
Qed.

End DictFacts.

(** ** The loop *)

Section LoopFacts.

Implicit Types (d b : dict) (k c : string) (v : value).

Lemma bind_Ok {A B : Type} (f : A → result B) (m : result A) (r : B) :
  m ≫= f = Ok r ↔ ∃ a, m = Ok a ∧ f a = Ok r.
Proof.
  destruct m as [a|e]; simpl; split.
  - intros Hf. by exists a.
  - by intros (a' & [= <-] & Hf).
  - done.
  - by intros (a' & [=] & _).
Qed.

Lemma getitem_Ok o k v :
  getitem o k = Ok v ↔ ∃ d, o = VDict d ∧ dict_get d k = Some v.
Proof.
  split.
  - destruct o; simpl; try done.
    destruct (dict_get d k) eqn:E; [|done]. intros [= <-]. by exists d.
  - intros (d & -> & Hd). simpl. by rewrite Hd.
Qed.

Lemma iadd_int_Ok_addable v n v' : iadd_int v n = Ok v' → addable v = true.
Proof. by destruct v. Qed.

Lemma float_of_OFFSET : float_of_int OFFSET = Ok (S754_finite false 4503599627370496 (-51)).
Proof. reflexivity. Qed.

Lemma iadd_int_addable v : addable v = true → ∃ v', iadd_int v OFFSET = Ok v'.
Proof.
  destruct v; simpl; try done; intros _; rewrite ?float_of_OFFSET; simpl; eauto.
Qed.

(** On a number, [+= OFFSET] is the addition of the specification. *)
Lemma iadd_int_number v v' :
  is_number v = true → iadd_int v OFFSET = Ok v' →
  plus OFFSET v = Some v' ∧ is_number v' = true.
Proof.
  destruct v; try done; intros _; unfold iadd_int, plus.
  - by intros [= <-].
  - rewrite float_of_OFFSET. simpl. by intros [= <-].
Qed.

Lemma iadd_item_Ok o k n o' :
  iadd_item o k n = Ok o' ↔
  ∃ b v v', o = VDict b ∧ dict_get b k = Some v ∧ iadd_int v n = Ok v' ∧
            o' = VDict (dict_set b k v').
Proof.
  unfold iadd_item. rewrite bind_Ok. split.
  - intros (v & Hg & Hr). apply bind_Ok in Hr as (v' & Hadd & Hs).
    apply getitem_Ok in Hg as (b & -> & Hb). simpl in Hs.
    injection Hs as <-. by exists b, v, v'.
  - intros (b & v & v' & -> & Hb & Hadd & ->). exists v. split.
    + apply getitem_Ok. eauto.
    + apply bind_Ok. by exists v'.
Qed.

(** What one turn of the loop does to a frame entry, and when. *)
Lemma loop_body_Ok entry entry' :
  loop_body entry = Ok entry' ↔
  ∃ d b x x' y y',
    entry = VDict d ∧ dict_get d "frame" = Some (VDict b) ∧
    dict_get b "x" = Some x ∧ iadd_int x OFFSET = Ok x' ∧
    dict_get b "y" = Some y ∧ iadd_int y OFFSET = Ok y' ∧
    entry' = VDict (dict_set d "frame" (VDict (dict_set (dict_set b "x" x') "y" y'))).
Proof.
  unfold loop_body. rewrite bind_Ok. split.
  - intros (f & Hg & Hr).
    apply bind_Ok in Hr as (f1 & Hx & Hr).
    apply bind_Ok in Hr as (f2 & Hy & Hs).
    apply getitem_Ok in Hg as (d & -> & Hd).
    apply iadd_item_Ok in Hx as (b & x & x' & -> & Hbx & Hax & ->).
    apply iadd_item_Ok in Hy as (b1 & y & y' & [= <-] & Hby & Hay & ->).
    rewrite dict_get_set_ne in Hby by done.
    simpl in Hs. injection Hs as <-.
    by exists d, b, x, x', y, y'.
  - intros (d & b & x & x' & y & y' & -> & Hd & Hbx & Hax & Hby & Hay & ->).
    exists (VDict b). split; [apply getitem_Ok; eauto|].
    apply bind_Ok. exists (VDict (dict_set b "x" x')). split.
    { apply iadd_item_Ok. by exists b, x, x'. }
    apply bind_Ok. exists (VDict (dict_set (dict_set b "x" x') "y" y')). split; [|done].
    apply iadd_item_Ok. exists (dict_set b "x" x'), y, y'.
    by rewrite dict_get_set_ne.
Qed.

(** The turn goes through exactly on the entries with addable [x] and [y]. *)
Lemma loop_body_fixable entry :
  entry_ok addable entry = true ↔ ∃ entry', loop_body entry = Ok entry'.
Proof.
  split.
  - destruct entry as [| | | | | |d]; simpl; try done.
    destruct (dict_get d "frame") as [f|] eqn:Hd; [|done].
    destruct f as [| | | | | |b]; simpl; try done.
    destruct (dict_get b "x") as [x|] eqn:Hx; [|done].
    destruct (dict_get b "y") as [y|] eqn:Hy; [|done].
    intros [Hax Hay]%andb_true_iff.
    apply iadd_int_addable in Hax as [x' Hax], Hay as [y' Hay].
    eexists. apply loop_body_Ok. by exists d, b, x, x', y, y'.
  - intros (entry' & (d & b & x & x' & y & y' & -> & Hd & Hx & Hax & Hy & Hay & _)%loop_body_Ok).
    simpl. rewrite Hd. simpl. rewrite Hx, Hy.
    apply iadd_int_Ok_addable in Hax, Hay. by rewrite Hax, Hay.
Qed.

(** A turn leaves everything but the two coordinates as it was. *)
Lemma loop_body_kept entry entry' : loop_body entry = Ok entry' → entry_kept entry entry'.
Proof.
  intros (d & b & x & x' & y & y' & -> & Hd & Hx & Hax & Hy & Hay & ->)%loop_body_Ok.
  exists d, (dict_set d "frame" (VDict (dict_set (dict_set b "x" x') "y" y'))).
  exists (VDict b), (VDict (dict_set (dict_set b "x" x') "y" y')).
  repeat split; try done.
  - apply (dict_set_keeps d "frame" (VDict b)), Hd.
  - apply dict_get_set_eq.
  - exists b, (dict_set (dict_set b "x" x') "y" y'). repeat split.
    apply (keeps_trans _ _ (dict_set b "x" x')).
    + apply (keeps_mono ["x"]); [by intros s ->%list_elem_of_singleton; left|]. apply (dict_set_keeps b "x" x), Hx.
    + apply (keeps_mono ["y"]); [by intros s ->%list_elem_of_singleton; right; left|].
      apply (dict_set_keeps _ "y" y). by rewrite dict_get_set_ne.
Qed.

(** On an entry with numeric coordinates, a turn shifts both by [OFFSET]
    and leaves them numeric. *)
Lemma loop_body_shift entry entry' :
  entry_ok is_number entry = true → loop_body entry = Ok entry' →
  shifted OFFSET "x" entry entry' ∧ shifted OFFSET "y" entry entry' ∧
  entry_ok is_number entry' = true.
Proof.
  intros Hok (d & b & x & x' & y & y' & -> & Hd & Hx & Hax & Hy & Hay & ->)%loop_body_Ok.
  simpl in Hok. rewrite Hd in Hok. simpl in Hok. rewrite Hx, Hy in Hok.
  apply andb_true_iff in Hok as [Hnx Hny].
  destruct (iadd_int_number _ _ Hnx Hax) as [Hpx Hnx'].
  destruct (iadd_int_number _ _ Hny Hay) as [Hpy Hny'].
  unfold shifted. simpl. rewrite Hd, dict_get_set_eq. simpl.
  rewrite dict_get_set_eq, dict_get_set_ne, dict_get_set_eq by done.
  repeat split.
  - by exists x, x'.
  - by exists y, y'.
  - by rewrite Hnx', Hny'.
Qed.

Lemma for_values_Ok body (entries entries' : dict) :
  for_values body entries = Ok entries' ↔
  Forall2 (fun a a' => a.1 = a'.1 ∧ body a.2 = Ok a'.2) entries entries'.
Proof.
  revert entries'. induction entries as [|[k v] entries IH]; intros entries'; simpl.
  - split; [by intros [= <-]; constructor | by inversion 1].
  - rewrite bind_Ok. split.
    + intros (v' & Hb & (rest' & Hrest & [= <-])%bind_Ok).
      constructor; [done|]. by apply IH.
    + inversion 1 as [|? [k' v'] ? rest' [Hk Hb] Hrest]; simpl in *; subst.
      exists v'. split; [done|]. apply bind_Ok. exists rest'. split; [by apply IH|done].
Qed.

Lemma for_values_fixable (entries : dict) :
  forallb (fun kv => entry_ok addable kv.2) entries = true ↔
  ∃ entries', for_values loop_body entries = Ok entries'.
Proof.
  induction entries as [|[k v] entries IH]; simpl.
  - split; eauto.
  - rewrite andb_true_iff, IH, loop_body_fixable. split.
    + intros [[v' Hv] [rest' Hrest]]. exists ((k, v') :: rest').
      by rewrite Hv, Hrest.
    + intros (entries' & (v' & Hv & (rest' & Hrest & _)%bind_Ok)%bind_Ok). eauto.
Qed.

(** What the whole loop does to a document, and when. *)
Lemma fix_padding_Ok data data' :
  fix_padding data = Ok data' ↔
  ∃ d entries entries',
    data = VDict d ∧ dict_get d "frames" = Some (VDict entries) ∧
    for_values loop_body entries = Ok entries' ∧
    data' = VDict (dict_set d "frames" (VDict entries')).
Proof.
  unfold fix_padding. rewrite bind_Ok. split.
  - intros (fr & (d & -> & Hd)%getitem_Ok & (es & Hit & (es' & Hfor & Hs)%bind_Ok)%bind_Ok).
    destruct fr; try done. injection Hit as ->. injection Hs as <-.
    by exists d, es, es'.
  - intros (d & es & es' & -> & Hd & Hfor & ->).
    exists (VDict es). split; [apply getitem_Ok; eauto|].
    apply bind_Ok. exists es. split; [done|].
    apply bind_Ok. by exists es'.
Qed.

Lemma fix_padding_fixable data :
  fixable data = true ↔ ∃ data', fix_padding data = Ok data'.
Proof.
  split.
  - destruct data as [| | | | | |d]; simpl; try done.
    unfold fixable; simpl.
    destruct (dict_get d "frames") as [fr|] eqn:Hd; [|done].
    destruct fr as [| | | | | |es]; try done.
    intros [es' Hes]%for_values_fixable.
    eexists. apply fix_padding_Ok. by exists d, es, es'.
  - intros (data' & (d & es & es' & -> & Hd & Hfor & _)%fix_padding_Ok).
    unfold fixable; simpl. rewrite Hd. apply for_values_fixable. eauto.
Qed.

Lemma fix_padding_unfixable data :
  fixable data = false → ∃ e, fix_padding data = Raise e.
Proof.
  intros Hf. destruct (fix_padding data) as [data'|e] eqn:E; [|eauto].
  assert (fixable data = true) by (apply fix_padding_fixable; eauto). congruence.
Qed.

Lemma valid_atlas_fixable data : valid_atlas data = true → fixable data = true.
Proof.
  assert (Hn : ∀ v, is_number v = true → addable v = true) by (by intros []).
  assert (He : ∀ e, entry_ok is_number e = true → entry_ok addable e = true).
  { intros [| | | | | |d]; simpl; try done.
    destruct (dict_get d "frame") as [[| | | | | |b]|]; simpl; try done.
    destruct (dict_get b "x"), (dict_get b "y"); try done.
    intros [? ?]%andb_true_iff. rewrite !Hn; done. }
  unfold valid_atlas, fixable.
  destruct data as [| | | | | |d]; simpl; try done.
  destruct (dict_get d "frames") as [[| | | | | |es]|]; try done.
  rewrite !forallb_forall. intros Hall kv Hin. apply He, Hall, Hin.
Qed.

End LoopFacts.

(** ** The script, run *)

Section MainFacts.

Context {py : Interpreter}.

(** Every run takes one of six paths. *)
Lemma main_run (w : World) :
  main w =
  match files w !! "collectables.json" with
  | None => (Raise (FileNotFoundError "collectables.json"), w)
  | Some text =>
      match json_loads (environ w) text with
      | Raise e => (Raise e, after_read w)
      | Ok data =>
          match fix_padding data with
          | Raise e => (Raise e, after_read w)
          | Ok data' =>
              match json_dumps (environ w) data' 2 with
              | (out, Some e) => (Raise e, after_write out w)
              | (out, None) =>
                  match stdout_error (environ w) message with
                  | Some e => (Raise e, after_write out w)
                  | None => (Ok (), after_run out w)
                  end
              end
          end
      end
  end.
Proof.
  destruct w as [fs so args env evs].
  unfold main, json_load, json_dump, print, getenv, mbind, io_bind, open_, read, lift,
    after_read, after_write, after_run.
  cbv [log set_file emit write files stdout argv environ events h_path h_mode mret io_ret].
  destruct (fs !! "collectables.json") as [text|] eqn:Hin; [|done].
  rewrite ?Hin. cbv [files stdout argv environ events].
  destruct (json_loads env text) as [data|e]; [|by rewrite <- !app_assoc].
  destruct (fix_padding data) as [data'|e]; [|by rewrite <- !app_assoc].
  destruct (json_dumps env data' 2) as [out err].
  cbv [files stdout argv environ events].
  rewrite lookup_insert_eq, insert_insert_eq.
  cbn [default String.append]. rewrite <- !app_assoc.
  destruct err as [e|]; [done|].
  destruct (stdout_error env message); [done|].
  by rewrite <- !app_assoc.
Qed.

(** Once the loop is through, the output file holds what [json.dump] got
    out and the run ends as [json.dump] and [print] end. *)
Lemma main_after_loop (w : World) (text : string) (data data' : value) :
  files w !! "collectables.json" = Some text →
  json_loads (environ w) text = Ok data →
  fix_padding data = Ok data' →
  (main w).1 = ending (environ w) data' ∧
  files (main w).2
  = <["collectables_padded.json" := (json_dumps (environ w) data' 2).1]> (files w) ∧
  stdout (main w).2
  = match ending (environ w) data' with
    | Ok _ => (stdout w ++ [message])%list
    | Raise _ => stdout w
    end ∧
  events (main w).2
  = (events w
     ++ [EvOpen in_file; EvRead "collectables.json"; EvOpen out_file;
         EvWrite "collectables_padded.json" (json_dumps (environ w) data' 2).1]
     ++ match ending (environ w) data' with
        | Ok _ => [EvPrint message]
        | Raise _ => []
        end)%list.
Proof.
  intros Hin Hload Hfix. rewrite main_run, Hin, Hload, Hfix. unfold ending.
  destruct (json_dumps (environ w) data' 2) as [out [e|]]; [done|].
  cbn [fst snd]. destruct (stdout_error (environ w) message); [done|].
  cbn [fst snd after_run files stdout events]. by repeat split.
Qed.

(** A run that fails before the output is opened leaves files and standard
    output as they were. *)
Lemma main_before_write (w : World) :
  admits addable w = false →
  ∃ e w', main w = (Raise e, w') ∧ files w' = files w ∧ stdout w' = stdout w.
Proof.
  unfold admits. rewrite main_run.
  destruct (files w !! "collectables.json") as [text|]; [|by eauto].
  destruct (json_loads (environ w) text) as [data|e]; [|by eauto].
  intros [e ->]%fix_padding_unfixable. by eauto.
Qed.

Lemma admits_fix_padding (w : World) :
  admits addable w = true ↔
  ∃ text data data',
    files w !! "collectables.json" = Some text ∧
    json_loads (environ w) text = Ok data ∧ fix_padding data = Ok data'.
Proof.
  unfold admits. split.
  - destruct (files w !! "collectables.json") as [text|]; [|done].
    destruct (json_loads (environ w) text) as [data|e] eqn:Hload; [|done].
    intros [data' Hfix]%fix_padding_fixable. by exists text, data, data'.
  - intros (text & data & data' & -> & -> & Hfix). apply fix_padding_fixable. eauto.
Qed.

End MainFacts.

(** ** The properties the specification states *)

Section Claims.

Context {py : Interpreter}.

Lemma loop_shift_all (entries entries' : dict) :
  forallb (fun kv => entry_ok is_number kv.2) entries = true →
  for_values loop_body entries = Ok entries' →
  Forall2 (fun a a' => a.1 = a'.1 ∧ shifted OFFSET "x" a.2 a'.2 ∧ shifted OFFSET "y" a.2 a'.2)
    entries entries' ∧
  forallb (fun kv => entry_ok is_number kv.2) entries' = true.
Proof.
  intros Hall Hfor%for_values_Ok.
  induction Hfor as [|a a' l l' [Hk Hb] _ IH]; simpl in *; [by split|].
  apply andb_true_iff in Hall as [Ha Hl].
  destruct (loop_body_shift _ _ Ha Hb) as (Hx & Hy & Ha').
  destruct (IH Hl) as [IH1 IH2]. split; [by constructor|].
  by rewrite Ha', IH2.
Qed.

Lemma loop_kept_all (entries entries' : dict) :
  for_values loop_body entries = Ok entries' →
  Forall2 (fun a a' => a.1 = a'.1 ∧ entry_kept a.2 a'.2) entries entries'.
Proof.
  intros Hfor%for_values_Ok. eapply Forall2_impl; [exact Hfor|].
  intros a a' [Hk Hb]. split; [done|]. by apply loop_body_kept.
Qed.

(** The loop on a valid document: it goes through, the result is valid, the
    frames keep their ids and order, and both coordinates are shifted. *)
Lemma fix_padding_valid (data : value) :
  valid_atlas data = true →
  ∃ data' entries entries',
    fix_padding data = Ok data' ∧ valid_atlas data' = true ∧
    frames_of data = Some entries ∧ frames_of data' = Some entries' ∧
    Forall2 (fun a a' => a.1 = a'.1 ∧ shifted OFFSET "x" a.2 a'.2 ∧ shifted OFFSET "y" a.2 a'.2)
      entries entries'.
Proof.
  intros Hv.
  destruct (proj1 (fix_padding_fixable data) (valid_atlas_fixable _ Hv)) as [data' Hfix].
  pose proof Hfix as (d & es & es' & -> & Hd & Hfor & ->)%fix_padding_Ok.
  unfold valid_atlas in *. simpl in Hv. rewrite Hd in Hv.
  destruct (loop_shift_all _ _ Hv Hfor) as [Hsh Hv'].
  exists (VDict (dict_set d "frames" (VDict es'))), es, es'.
  simpl. rewrite Hd, dict_get_set_eq. by repeat split.
Qed.

(** The loop leaves everything but the coordinates as it was. *)
Lemma fix_padding_kept (data data' : value) :
  fix_padding data = Ok data' → atlas_kept data data'.
Proof.
  intros (d & es & es' & -> & Hd & Hfor & ->)%fix_padding_Ok.
  exists d, (dict_set d "frames" (VDict es')), es, es'. repeat split; try done.
  - apply (dict_set_keeps d "frames" (VDict es)), Hd.
  - apply dict_get_set_eq.
  - by apply loop_kept_all.
Qed.



(** C2, amended. On a valid Atlas Document the loop leaves a document that
    has, at the document level, in every frame entry and in every frame
    box, the keys of the input in the same order, with the same values
    everywhere but under [x] and [y] of the boxes.  The run writes to the
    output file what [json.dump] gets out of that document, which is all of
    it unless [json.dump] raises, and ends as [json.dump] and [print]
    end. *)
Theorem other_fields_preserved (w : World) (text : string) (data : value) :
  files w !! "collectables.json" = Some text →
  json_loads (environ w) text = Ok data →
  valid_atlas data = true →
  ∃ data',
    fix_padding data = Ok data' ∧ atlas_kept data data' ∧
    (main w).1 = ending (environ w) data' ∧
    files (main w).2 !! "collectables_padded.json"
    = Some (json_dumps (environ w) data' 2).1.
Proof.
  intros Hin Hload Hv.
  destruct (fix_padding_valid data Hv) as (data' & _ & _ & Hfix & _).
  destruct (main_after_loop w text data data' Hin Hload Hfix) as (Hend & Hfiles & _).
  exists data'. repeat split; try done.
  - by apply fix_padding_kept.
  - rewrite Hfiles. apply lookup_insert_eq.
Qed.

(** C3, amended. When the input file is missing, is not JSON, or holds
    anything but an object whose ["frames"] maps every id to an object with
    a ["frame"] object whose [x] and [y] are numbers or booleans, the run
    ends in an exception, no file is written and nothing is printed. *)
Theorem failing_input_aborts (w : World) :
  admits addable w = false →
  ∃ e w', main w = (Raise e, w') ∧ files w' = files w ∧ stdout w' = stdout w.
Proof.
  intros Hno. destruct (main_before_write w Hno) as (e & w' & Hrun & Hfiles & Hout).
  by exists e, w'.
Qed.

Lemma shifted_twice_intro (c : string) (e e1 e2 : value) :
  shifted 2 c e e1 → shifted 2 c e1 e2 →
  shifted_twice 2 c e e2 ∧ int_shifted 4 c e e2 ∧ int_not_shifted 2 c e e2.
Proof.
  intros (v & v1 & Hv & Hp & Hv1) (v1' & v2 & Hv1' & Hp' & Hv2).
  assert (v1' = v1) as -> by congruence.
  split; [by exists v, v1, v2|].
  split; intros n Hn; rewrite Hn in Hv; injection Hv as <-;
    simpl in Hp; injection Hp as <-; simpl in Hp'; injection Hp' as <-; rewrite Hv2.
  - do 2 f_equal. lia.
  - intros [= Heq]. lia.
Qed.

Lemma Forall2_compose {A B C : Type} (P : A → B → Prop) (Q : B → C → Prop)
    (l1 : list A) (l2 : list B) (l3 : list C) :
  Forall2 P l1 l2 → Forall2 Q l2 l3 →
  Forall2 (fun a c => ∃ b, P a b ∧ Q b c) l1 l3.
Proof.
  intros H12. revert l3.
  induction H12 as [|a b l1 l2 Hab _ IH]; intros l3 H23; inversion H23; subst.
  - constructor.
  - constructor; [by exists b|by apply IH].
Qed.

(** C4, amended. Two runs in a row, the second on the output of the first,
    add [2] twice to every coordinate of a valid Atlas Document, provided
    the first output is complete and reads back as the document written: an
    integer coordinate ends up exactly [4] higher, which is not [2] higher;
    a float coordinate has [2] added twice in binary64.  The second run
    writes what [json.dump] gets out of that document and ends as
    [json.dump] and [print] end. *)
Theorem twice_shifts_by_four (w : World) (text : string) (data : value) :
  files w !! "collectables.json" = Some text →
  json_loads (environ w) text = Ok data →
  valid_atlas data = true →
  (∀ data1, fix_padding data = Ok data1 →
            (json_dumps (environ w) data1 2).2 = None ∧
            json_loads (environ w) (json_dumps (environ w) data1 2).1 = Ok data1) →
  ∃ data2 entries entries2,
    (main (feed_back (main w).2)).1 = ending (environ w) data2 ∧
    files (main (feed_back (main w).2)).2 !! "collectables_padded.json"
    = Some (json_dumps (environ w) data2 2).1 ∧
    frames_of data = Some entries ∧ frames_of data2 = Some entries2 ∧
    Forall2 (fun a a2 => a.1 = a2.1 ∧ fixed_twice a.2 a2.2) entries entries2.
Proof.
  intros Hin Hload Hv Hback.
  destruct (fix_padding_valid data Hv) as (data1 & es & es1 & Hfix & Hv1 & Hes & Hes1 & Hsh).
  destruct (fix_padding_valid data1 Hv1) as (data2 & es1' & es2 & Hfix2 & _ & Hes1' & Hes2 & Hsh2).
  assert (es1' = es1) as -> by congruence.
  destruct (Hback data1 Hfix) as [_ Hread].
  destruct (main_after_loop w text data data1 Hin Hload Hfix) as (_ & Hfiles & _).
  set (w1 := (main w).2) in *.
  assert (Henv1 : environ w1 = environ w).
  { unfold w1. rewrite main_run, Hin, Hload, Hfix.
    destruct (json_dumps (environ w) data1 2) as [out [e|]]; [done|].
    by destruct (stdout_error (environ w) message). }
  assert (Hout1 : files w1 !! "collectables_padded.json"
                  = Some (json_dumps (environ w) data1 2).1).
  { rewrite Hfiles. apply lookup_insert_eq. }
  assert (Henv : environ (feed_back w1) = environ w).
  { unfold feed_back. by rewrite Hout1. }
  assert (Hfb : files (feed_back w1) !! "collectables.json"
                = Some (json_dumps (environ w) data1 2).1).
  { unfold feed_back. rewrite Hout1. cbn [set_file files]. apply lookup_insert_eq. }
  assert (Hread' : json_loads (environ (feed_back w1))
                     (json_dumps (environ w) data1 2).1 = Ok data1)
    by by rewrite Henv.
  destruct (main_after_loop (feed_back w1) _ data1 data2 Hfb Hread' Hfix2)
    as (Hend2 & Hfiles2 & _).
  rewrite Henv in Hend2, Hfiles2.
  exists data2, es, es2. repeat split; try done.
  - rewrite Hfiles2. apply lookup_insert_eq.
  - eapply Forall2_impl; [exact (Forall2_compose _ _ _ _ _ Hsh Hsh2)|].
    intros a a2 (a1 & (Hk & Hx & Hy) & (Hk' & Hx' & Hy')).
    destruct (shifted_twice_intro "x" _ _ _ Hx Hx') as (? & ? & ?).
    destruct (shifted_twice_intro "y" _ _ _ Hy Hy') as (? & ? & ?).
    split; [congruence|]. by repeat split.
Qed.

(** C5, amended. When ["frames"] is the empty mapping, [json.dump] renders
    the document and standard output can take the confirmation line, the
    run succeeds: it writes the document it read, unchanged, and prints the
    confirmation. *)
Theorem empty_frames_succeed (w : World) (text : string) (d : dict) :
  files w !! "collectables.json" = Some text →
  json_loads (environ w) text = Ok (VDict d) →
  dict_get d "frames" = Some (VDict []) →
  (json_dumps (environ w) (VDict d) 2).2 = None →
  stdout_error (environ w) message = None →
  ∃ w',
    main w = (Ok (), w') ∧
    files w'
    = <["collectables_padded.json" := (json_dumps (environ w) (VDict d) 2).1]> (files w) ∧
    stdout w' = (stdout w ++ [message])%list.
Proof.
  intros Hin Hload Hd Hdump Hprint.
  assert (Hfix : fix_padding (VDict d) = Ok (VDict d)).
  { apply fix_padding_Ok. exists d, [], []. repeat split; try done.
    by rewrite dict_set_same. }
  exists (main w).2. rewrite main_run, Hin, Hload, Hfix.
  destruct (json_dumps (environ w) (VDict d) 2) as [out err]. simpl in Hdump. subst err.
  by rewrite Hprint.
Qed.

(** C6. A run succeeds exactly when every step goes through; then it has
    printed the confirmation line, once, as its last effect, right after
    the output file was written, whatever the document held.  A run that
    fails adds nothing to standard output. *)
Theorem one_confirmation_line (w : World) :
  ((main w).1 = Ok () ↔ completes w = true) ∧
  match main w with
  | (Ok _, w') =>
      stdout w' = (stdout w ++ [message])%list ∧
      ∃ text,
        files w' !! "collectables_padded.json" = Some text ∧
        events w' = (events w ++ [EvOpen in_file; EvRead "collectables.json"; EvOpen out_file;
                                  EvWrite "collectables_padded.json" text; EvPrint message])%list
  | (Raise _, w') =>
      stdout w' = stdout w ∧
      ∃ before, events w' = (events w ++ before)%list ∧ ∀ line, EvPrint line ∉ before
  end.
Proof.
  unfold completes, ending. rewrite main_run.
  destruct (files w !! "collectables.json") as [text|].
  2:{ split; [done|]. split; [done|]. exists []. rewrite app_nil_r. split; [done|].
      intros line Hin. by apply not_elem_of_nil in Hin. }
  assert (Hread : ∀ line, EvPrint line ∉ [EvOpen in_file; EvRead "collectables.json"]).
  { intros line Hin. repeat (apply elem_of_cons in Hin as [[=]|Hin]).
    by apply not_elem_of_nil in Hin. }
  assert (Hwrite : ∀ line out,
             EvPrint line ∉ [EvOpen in_file; EvRead "collectables.json"; EvOpen out_file;
                             EvWrite "collectables_padded.json" out]).
  { intros line out Hin. repeat (apply elem_of_cons in Hin as [[=]|Hin]).
    by apply not_elem_of_nil in Hin. }
  destruct (json_loads (environ w) text) as [data|].
  2:{ split; [done|]. split; [done|]. eexists. split; [|intros line; apply Hread].
      cbn [after_read log events]. by rewrite <- app_assoc. }
  destruct (fix_padding data) as [data'|].
  2:{ split; [done|]. split; [done|]. eexists. split; [|intros line; apply Hread].
      cbn [after_read log events]. by rewrite <- app_assoc. }
  destruct (json_dumps (environ w) data' 2) as [out [e|]]; cbn [fst snd].
  { split; [done|]. split; [done|]. eexists. split; [done|]. intros line. apply Hwrite. }
  destruct (stdout_error (environ w) message).
  { split; [done|]. split; [done|]. eexists. split; [done|]. intros line. apply Hwrite. }
  split; [done|]. split; [done|]. exists out. split; [|done].
  cbn [after_run files]. apply lookup_insert_eq.
Qed.


(** C8. No run, successful or not, changes [collectables.json]; apart from
    [collectables_padded.json] the directory is after the run what it was
    before. *)
Theorem input_file_untouched (w : World) :
  files (main w).2 !! "collectables.json" = files w !! "collectables.json" ∧
  delete "collectables_padded.json" (files (main w).2)
  = delete "collectables_padded.json" (files w).
Proof.
  rewrite main_run.
  destruct (files w !! "collectables.json") as [text|] eqn:Hin; [|done].
  destruct (json_loads (environ w) text) as [data|]; [|done].
  destruct (fix_padding data) as [data'|]; [|done].
  assert (Hw : ∀ out,
             <["collectables_padded.json" := out]> (files w) !! "collectables.json"
             = Some text ∧
             delete "collectables_padded.json"
               (<["collectables_padded.json" := out]> (files w))
             = delete "collectables_padded.json" (files w)).
  { intros out. split; [by rewrite lookup_insert_ne|apply delete_insert_eq]. }
  destruct (json_dumps (environ w) data' 2) as [out [e|]]; [apply Hw|].
  destruct (stdout_error (environ w) message); apply Hw.
Qed.

(** C9. On a document whose ["frames"] is an object of entries with a
    ["frame"] object whose [x] and [y] are numbers, the loop raises nothing:
    adding the offset to a number always yields a number, every integer
    coordinate becomes exactly two more, and the result is again such a
    document. *)
Theorem offset_addition_total (data : value) :
  valid_atlas data = true →
  (∀ v, is_number v = true → ∃ v', iadd_int v OFFSET = Ok v' ∧ is_number v' = true) ∧
  (∀ n, iadd_int (VInt n) OFFSET = Ok (VInt (n + 2))) ∧
  (∀ e, fix_padding data ≠ Raise e) ∧
  ∃ data' entries entries',
    fix_padding data = Ok data' ∧ valid_atlas data' = true ∧
    frames_of data = Some entries ∧ frames_of data' = Some entries' ∧
    Forall2 (fun a a' => a.1 = a'.1 ∧ int_shifted 2 "x" a.2 a'.2 ∧ int_shifted 2 "y" a.2 a'.2)
      entries entries'.
Proof.
  intros Hv.
  destruct (fix_padding_valid data Hv) as (data' & es & es' & Hfix & Hv' & Hes & Hes' & Hsh).
  repeat split.
  - intros v Hn. destruct (iadd_int_addable v) as [v' Hv0]; [by destruct v|].
    exists v'. split; [done|]. by destruct (iadd_int_number v v' Hn Hv0).
  - by rewrite Hfix.
  - exists data', es, es'. repeat split; try done.
    eapply Forall2_impl; [exact Hsh|].
    intros a a' (Hk & Hx & Hy). split; [done|].
    split; intros n Hn.
    + destruct Hx as (v & v' & Hc & Hp & Hc'). rewrite Hn in Hc. injection Hc as <-.
      simpl in Hp. by injection Hp as <-.
    + destruct Hy as (v & v' & Hc & Hp & Hc'). rewrite Hn in Hc. injection Hc as <-.
      simpl in Hp. by injection Hp as <-.
Qed.


End Claims.

(** ** The properties on the sample worlds *)

Section Runs_on_samples.

Import Samples.

(** Take a conjunction of closed facts apart, leaving each to be evaluated. *)
Ltac conjuncts := repeat match goal with |- _ ∧ _ => split end.

Example fix_padding_atlas : fix_padding atlas = Ok atlas_fixed.
Proof. reflexivity. Qed.

Example fix_padding_not_an_object : fix_padding (VList []) = Raise TypeError.
Proof. reflexivity. Qed.

Example fix_padding_no_frames : fix_padding (VDict [("meta", VNone)]) = Raise (KeyError "frames").
Proof. reflexivity. Qed.

Example fix_padding_frames_is_a_list :
  fix_padding (VDict [("frames", VList [])]) = Raise AttributeError.
Proof. reflexivity. Qed.

Example fix_padding_missing_y : fix_padding mixed_atlas = Raise (KeyError "y").
Proof. reflexivity. Qed.

Example loop_body_string_coordinate :
  loop_body (VDict [("frame", box (VStr "12") (VInt 0))]) = Raise TypeError.
Proof. reflexivity. Qed.

Example loop_body_half_pixel :
  loop_body (VDict [("frame", box (VFloat (CPython.float_of_decimal false 5 (-1))) (VInt 0))])
  = Ok (VDict [("frame", box (VFloat (CPython.float_of_decimal false 25 (-1))) (VInt 2))]).
Proof. vm_compute. reflexivity. Qed.

Example run_without_input :
  run empty_dir = (Raise (FileNotFoundError "collectables.json"), empty_dir).
Proof. vm_compute. reflexivity. Qed.

Example run_on_broken_json : (run (world_of "{ frames: ")).1 = Raise JSONDecodeError.
Proof. vm_compute. reflexivity. Qed.

Example run_on_atlas :
  summary (run (busy_world_of (text_of atlas)))
  = (Ok (), Some (text_of atlas_fixed), ["earlier line"; message]).
Proof. vm_compute. reflexivity. Qed.

Example dumps_indents_by_two :
  CPython.dumps ∅ (VDict [("frames", VDict []); ("n", VList [VInt 1; VInt 2])]) 2
  = ("{" ++ CPython.str1 10
     ++ "  " ++ quoted "frames" ++ ": {}," ++ CPython.str1 10
     ++ "  " ++ quoted "n" ++ ": [" ++ CPython.str1 10
     ++ "    1," ++ CPython.str1 10
     ++ "    2" ++ CPython.str1 10
     ++ "  ]" ++ CPython.str1 10
     ++ "}", None).
Proof. vm_compute. reflexivity. Qed.

Example loads_reads_back_atlas : CPython.loads ∅ (text_of atlas) = Ok atlas.
Proof. vm_compute. reflexivity. Qed.



Lemma other_fields_preserved_witness :
  ∃ data',
    fix_padding atlas = Ok data' ∧ atlas_kept atlas data' ∧
    (main (py := CPython.python) (busy_world_of (text_of atlas))).1
    = ending (py := CPython.python) (environ (busy_world_of (text_of atlas))) data' ∧
    files (main (py := CPython.python) (busy_world_of (text_of atlas))).2
      !! "collectables_padded.json"
    = Some (json_dumps (Interpreter := CPython.python)
              (environ (busy_world_of (text_of atlas))) data' 2).1.
Proof.
  refine (other_fields_preserved (py := CPython.python)
            (busy_world_of (text_of atlas)) (text_of atlas) atlas _ _ _);
    vm_compute; reflexivity.
Defined.

(** C2 as stated fails: on the valid document with an [x] of 4300 nines the
    output file ends inside the first frame box; it is not JSON, and the
    [w], the [h] and the document-level ["meta"] of the input are not in
    it. *)
Lemma long_coordinate_cuts_output :
  admits (py := CPython.python) is_number (busy_world_of long_text) = true ∧
  summary (run (busy_world_of long_text))
  = (Raise ValueError, Some long_output, ["earlier line"]) ∧
  CPython.loads ∅ long_output = Raise JSONDecodeError.
Proof. conjuncts; vm_compute; reflexivity. Qed.

(** C3 as stated fails: a frame whose [x] is [true] has no numeric [x], yet
    the run goes through, writes the output with [x = 3] and prints. *)
Lemma boolean_coordinate_goes_through :
  admits (py := CPython.python) is_number (world_of (text_of bool_atlas)) = false ∧
  (run (world_of (text_of bool_atlas))).1 = Ok () ∧
  files (run (world_of (text_of bool_atlas))).2 !! "collectables_padded.json"
  = Some (text_of bool_atlas_fixed) ∧
  stdout (run (world_of (text_of bool_atlas))).2 = [message].
Proof. vm_compute. repeat split. Qed.

(** A document with a well-formed entry and one that lacks [y]. *)
Lemma failing_input_aborts_witness :
  ∃ e w',
    main (py := CPython.python) (busy_world_of (text_of mixed_atlas)) = (Raise e, w') ∧
    files w' = files (busy_world_of (text_of mixed_atlas)) ∧
    stdout w' = stdout (busy_world_of (text_of mixed_atlas)).
Proof.
  refine (failing_input_aborts (py := CPython.python)
            (busy_world_of (text_of mixed_atlas)) _).
  vm_compute. reflexivity.
Defined.

(** C4 as stated fails: at [x = 18014398509481984.0] two runs leave [x]
    where one run leaves it, which is where it was, and not at [x + 4]. *)
Lemma far_frame_stays :
  valid_atlas far_atlas = true ∧
  CPython.loads ∅ (text_of far_atlas) = Ok far_atlas ∧
  (run (world_of (text_of far_atlas))).1 = Ok () ∧
  (run (feed_back (run (world_of (text_of far_atlas))).2)).1 = Ok () ∧
  CPython.loads ∅ <$> files (run (feed_back (run (world_of (text_of far_atlas))).2)).2
                        !! "collectables_padded.json"
  = Some (Ok far_atlas_twice) ∧
  plus 4 (VFloat f2p54) = Some (VFloat f2p54_next) ∧
  ¬ shifted 4 "x" (far_entry (VFloat f2p54) (VInt 0)) (far_entry (VFloat f2p54) (VInt 4)) ∧
  shifted 2 "x" (far_entry (VFloat f2p54) (VInt 0)) (far_entry (VFloat f2p54) (VInt 4)).
Proof.
  conjuncts; try (vm_compute; reflexivity).
  - intros (v & v' & Hv & Hp & Hv'). vm_compute in Hv. injection Hv as <-.
    vm_compute in Hp. injection Hp as <-. vm_compute in Hv'. discriminate.
  - exists (VFloat f2p54), (VFloat f2p54). by vm_compute.
Qed.

Lemma twice_shifts_by_four_witness :
  ∃ data2 entries entries2,
    (main (py := CPython.python)
       (feed_back (main (py := CPython.python) (world_of (text_of atlas))).2)).1
    = ending (py := CPython.python) (environ (world_of (text_of atlas))) data2 ∧
    files (main (py := CPython.python)
             (feed_back (main (py := CPython.python) (world_of (text_of atlas))).2)).2
      !! "collectables_padded.json"
    = Some (json_dumps (Interpreter := CPython.python)
              (environ (world_of (text_of atlas))) data2 2).1 ∧
    frames_of atlas = Some entries ∧ frames_of data2 = Some entries2 ∧
    Forall2 (fun a a2 => a.1 = a2.1 ∧ fixed_twice a.2 a2.2) entries entries2.
Proof.
  refine (twice_shifts_by_four (py := CPython.python)
            (world_of (text_of atlas)) (text_of atlas) atlas _ _ _ _);
    [vm_compute; reflexivity | vm_compute; reflexivity | vm_compute; reflexivity | ].
  intros data1 Hfix. vm_compute in Hfix. injection Hfix as <-.
  split; vm_compute; reflexivity.
Defined.

Lemma empty_frames_succeed_witness :
  ∃ w',
    main (py := CPython.python) (world_of (text_of empty_atlas)) = (Ok (), w') ∧
    files w'
    = <["collectables_padded.json" :=
          (json_dumps (Interpreter := CPython.python)
             (environ (world_of (text_of empty_atlas)))
             (VDict [("frames", VDict []); ("meta", VDict [("scale", VStr "1")])]) 2).1]>
        (files (world_of (text_of empty_atlas))) ∧
    stdout w' = (stdout (world_of (text_of empty_atlas)) ++ [message])%list.
Proof.
  refine (empty_frames_succeed (py := CPython.python)
            (world_of (text_of empty_atlas)) (text_of empty_atlas)
            [("frames", VDict []); ("meta", VDict [("scale", VStr "1")])] _ _ _ _ _);
    vm_compute; reflexivity.
Defined.

(** C5 as stated fails: with a standard output that takes ASCII only the
    document with no frames is written, but the confirmation cannot be
    printed and the run ends in [UnicodeEncodeError]. *)
Lemma empty_frames_without_confirmation :
  CPython.loads ∅ (text_of empty_atlas) = Ok empty_atlas ∧
  summary (run (ascii_world_of (text_of empty_atlas)))
  = (Raise UnicodeEncodeError, Some (text_of empty_atlas), []).
Proof. split; vm_compute; reflexivity. Qed.

Example completes_on_atlas :
  completes (py := CPython.python) (world_of (text_of atlas)) = true ∧
  completes (py := CPython.python) (world_of (text_of empty_atlas)) = true ∧
  completes (py := CPython.python) (ascii_world_of (text_of atlas)) = false.
Proof. conjuncts; vm_compute; reflexivity. Qed.


Lemma offset_addition_total_witness :
  (∀ v, is_number v = true → ∃ v', iadd_int v OFFSET = Ok v' ∧ is_number v' = true) ∧
  (∀ n, iadd_int (VInt n) OFFSET = Ok (VInt (n + 2))) ∧
  (∀ e, fix_padding atlas ≠ Raise e) ∧
  ∃ data' entries entries',
    fix_padding atlas = Ok data' ∧ valid_atlas data' = true ∧
    frames_of atlas = Some entries ∧ frames_of data' = Some entries' ∧
    Forall2 (fun a a' => a.1 = a'.1 ∧ int_shifted 2 "x" a.2 a'.2 ∧ int_shifted 2 "y" a.2 a'.2)
      entries entries'.
Proof. refine (offset_addition_total atlas _). vm_compute. reflexivity. Defined.



End Runs_on_samples.

(** ** More on the loop: what it raises, and when *)

Set Warnings "-clear-no-such-hyp".

Section LoopErrors.

Implicit Types (d b : dict) (k c : string) (v : value) (e : exn).

Lemma bind_Raise {A B : Type} (f : A → result B) (m : result A) e :
  m ≫= f = Raise e ↔ m = Raise e ∨ ∃ a, m = Ok a ∧ f a = Raise e.
Proof.
  destruct m as [a|e']; simpl; split.
  - intros Hf. right. by exists a.
  - by intros [[=]|(a' & [= <-] & Hf)].
  - intros [= <-]. by left.
  - by intros [[= <-]|(a' & [=] & _)].
Qed.

Lemma iadd_int_Raise v e :
  iadd_int v OFFSET = Raise e ↔ addable v = false ∧ e = TypeError.
Proof.
  destruct v; unfold iadd_int; rewrite ?float_of_OFFSET; simpl; naive_solver.
Qed.

Lemma iadd_int_Ok_number v v' : iadd_int v OFFSET = Ok v' → is_number v' = true.
Proof.
  destruct v; unfold iadd_int; rewrite ?float_of_OFFSET; simpl; naive_solver.
Qed.

(** One turn of the loop, case by case. *)
Lemma loop_body_cases entry :
  loop_body entry =
  match entry with
  | VDict d =>
      match dict_get d "frame" with
      | None => Raise (KeyError "frame")
      | Some (VDict b) =>
          match dict_get b "x" with
          | None => Raise (KeyError "x")
          | Some x =>
              match iadd_int x OFFSET with
              | Raise e => Raise e
              | Ok x' =>
                  match dict_get b "y" with
                  | None => Raise (KeyError "y")
                  | Some y =>
                      match iadd_int y OFFSET with
                      | Raise e => Raise e
                      | Ok y' =>
                          Ok (VDict (dict_set d "frame"
                                (VDict (dict_set (dict_set b "x" x') "y" y'))))
                      end
                  end
              end
          end
      | Some _ => Raise TypeError
      end
  | _ => Raise TypeError
  end.
Proof.
  destruct entry as [| | | | | |d]; try done.
  unfold loop_body. simpl.
  destruct (dict_get d "frame") as [[| | | | | |b]|]; try done.
  simpl. unfold iadd_item. simpl.
  destruct (dict_get b "x") as [x|]; [|done]. simpl.
  destruct (iadd_int x OFFSET) as [x'|]; [|done]. simpl.
  rewrite dict_get_set_ne by done.
  destruct (dict_get b "y") as [y|]; [|done]. simpl.
  by destruct (iadd_int y OFFSET).
Qed.

Lemma for_values_Raise body (entries : dict) e :
  for_values body entries = Raise e ↔
  ∃ pre k bad post,
    entries = (pre ++ (k, bad) :: post)%list ∧
    Forall (fun kv => ∃ v', body kv.2 = Ok v') pre ∧ body bad = Raise e.
Proof.
  induction entries as [|[k v] entries IH]; simpl.
  - split; [done|]. intros (pre & k & bad & post & Heq & _). by destruct pre.
  - rewrite bind_Raise. split.
    + intros [Hv|(v' & Hv & Hrest)].
      * exists [], k, v, entries. by repeat split.
      * apply bind_Raise in Hrest as [Hrest|(rest' & _ & [=])].
        apply IH in Hrest as (pre & k' & bad & post & -> & Hpre & Hbad).
        exists ((k, v) :: pre), k', bad, post. repeat split; [|done].
        constructor; [by exists v'|done].
    + intros (pre & k' & bad & post & Heq & Hpre & Hbad).
      destruct pre as [|[k0 v0] pre]; simpl in Heq; injection Heq as -> -> ->.
      * by left.
      * apply Forall_cons in Hpre as [[v' Hv] Hpre]. right. exists v'. split; [done|].
        apply bind_Raise. left. apply IH. by exists pre, k', bad, post.
Qed.

(** X1. Whatever the document, the loop ends normally or in one of six
    exceptions: a [TypeError], an [AttributeError], or a [KeyError] for
    ["frames"], ["frame"], ["x"] or ["y"]. *)
Theorem fix_padding_raises_only data e :
  fix_padding data = Raise e → e ∈ loop_errors.
Proof.
  unfold fix_padding, loop_errors. intros Hr.
  apply bind_Raise in Hr as [Hr|(fr & Hfr & Hr)].
  { destruct data as [| | | | | |d]; simpl in Hr; try (injection Hr as <-; set_solver).
    destruct (dict_get d "frames"); [done|]. injection Hr as <-. set_solver. }
  apply bind_Raise in Hr as [Hr|(es & Hes & Hr)].
  { destruct fr; simpl in Hr; try done; injection Hr as <-; set_solver. }
  apply bind_Raise in Hr as [Hr|(es' & _ & Hr)].
  - apply for_values_Raise in Hr as (pre & k & bad & post & _ & _ & Hbad).
    rewrite loop_body_cases in Hbad.
    destruct bad as [| | | | | |d]; try (injection Hbad as <-; set_solver).
    destruct (dict_get d "frame") as [[| | | | | |b]|];
      try (injection Hbad as <-; set_solver).
    destruct (dict_get b "x") as [x|]; [|injection Hbad as <-; set_solver].
    destruct (iadd_int x OFFSET) as [x'|ex] eqn:Hx.
    + destruct (dict_get b "y") as [y|]; [|injection Hbad as <-; set_solver].
      destruct (iadd_int y OFFSET) as [y'|ey] eqn:Hy; [done|].
      apply iadd_int_Raise in Hy as [_ ->]. injection Hbad as <-. set_solver.
    + apply iadd_int_Raise in Hx as [_ ->]. injection Hbad as <-. set_solver.
  - apply getitem_Ok in Hfr as (d & -> & _). done.
Qed.

(** Splits a table of equivalences and closes each row by inverting its
    equations. *)
Ltac table_row :=
  repeat match goal with
         | |- _ ∧ _ => split
         | |- _ ↔ _ => split
         | |- _ → _ => intro
         | |- ∀ _, _ => intro
         | H : ∃ _, _ |- _ => destruct H
         | H : _ ∧ _ |- _ => destruct H
         end;
  simplify_eq; try congruence; eauto 10.

(** X2. When a turn of the loop ends in a [KeyError]: for ["frame"] when
    the entry is an object without that key, for ["x"] when the frame box is
    an object without [x], and for ["y"] when the box has an [x] that took
    the offset and no [y].  Every other failure of a turn is a
    [TypeError]. *)
Theorem loop_body_key_errors entry :
  (loop_body entry = Raise (KeyError "frame") ↔
     ∃ d, entry = VDict d ∧ dict_get d "frame" = None) ∧
  (loop_body entry = Raise (KeyError "x") ↔
     ∃ d b, entry = VDict d ∧ dict_get d "frame" = Some (VDict b) ∧
            dict_get b "x" = None) ∧
  (loop_body entry = Raise (KeyError "y") ↔
     ∃ d b x, entry = VDict d ∧ dict_get d "frame" = Some (VDict b) ∧
              dict_get b "x" = Some x ∧ addable x = true ∧ dict_get b "y" = None) ∧
  (∀ e, loop_body entry = Raise e →
        e = KeyError "frame" ∨ e = KeyError "x" ∨ e = KeyError "y" ∨ e = TypeError).
Proof.
  rewrite loop_body_cases.
  destruct entry as [| | | | | |d]; try by table_row.
  destruct (dict_get d "frame") as [[| | | | | |b]|] eqn:Hd; try by table_row.
  destruct (dict_get b "x") as [x|] eqn:Hx; [|by table_row].
  destruct (iadd_int x OFFSET) as [x'|ex] eqn:Hax.
  - pose proof (iadd_int_Ok_addable _ _ _ Hax) as Hadd.
    destruct (dict_get b "y") as [y|] eqn:Hy; [|by table_row].
    destruct (iadd_int y OFFSET) as [y'|ey] eqn:Hay; [by table_row|].
    apply iadd_int_Raise in Hay as [_ ->]. by table_row.
  - apply iadd_int_Raise in Hax as [Hadd ->]. by table_row.
Qed.

(** X3. The first entry the loop cannot correct decides how it ends: the
    entries before it were corrected, the ones after it are never looked
    at, and the exception is the one that entry raises. *)
Theorem first_bad_entry_decides d (pre post : dict) k bad e :
  dict_get d "frames" = Some (VDict (pre ++ (k, bad) :: post)%list) →
  forallb (fun kv => entry_ok addable kv.2) pre = true →
  loop_body bad = Raise e →
  fix_padding (VDict d) = Raise e.
Proof.
  intros Hd Hpre Hbad. unfold fix_padding. simpl. rewrite Hd. simpl.
  assert (Hfor : for_values loop_body (pre ++ (k, bad) :: post) = Raise e).
  { apply for_values_Raise. exists pre, k, bad, post. repeat split; [|done].
    apply Forall_forall. intros kv Hin. apply loop_body_fixable.
    rewrite forallb_forall in Hpre. apply Hpre. by apply list_elem_of_In. }
  by rewrite Hfor.
Qed.

Lemma loop_body_Ok_valid entry entry' :
  loop_body entry = Ok entry' → entry_ok is_number entry' = true.
Proof.
  intros (d & b & x & x' & y & y' & -> & Hd & Hx & Hax & Hy & Hay & ->)%loop_body_Ok.
  simpl. rewrite dict_get_set_eq. simpl.
  rewrite dict_get_set_eq, dict_get_set_ne, dict_get_set_eq by done.
  by rewrite (iadd_int_Ok_number _ _ Hax), (iadd_int_Ok_number _ _ Hay).
Qed.

Lemma fix_padding_Ok_valid data data' :
  fix_padding data = Ok data' → valid_atlas data' = true.
Proof.
  intros (d & es & es' & -> & Hd & Hfor & ->)%fix_padding_Ok.
  unfold valid_atlas. simpl. rewrite dict_get_set_eq.
  apply for_values_Ok in Hfor. clear Hd.
  induction Hfor as [|a a' l l' [_ Hb] _ IH]; simpl; [done|].
  by rewrite (loop_body_Ok_valid _ _ Hb), IH.
Qed.

(** X4. Whatever the loop returns is a valid Atlas Document, with numeric
    [x] and [y] in every frame, also when the input had booleans there; so
    the loop gets through its own result again. *)
Theorem corrected_is_valid data data' :
  fix_padding data = Ok data' →
  valid_atlas data' = true ∧ ∃ data'', fix_padding data' = Ok data''.
Proof.
  intros Hv%fix_padding_Ok_valid.
  split; [done|]. by apply fix_padding_fixable, valid_atlas_fixable.
Qed.

Lemma loop_body_bool entry entry' c :
  c = "x" ∨ c = "y" → loop_body entry = Ok entry' →
  bool_shifted 2 c entry entry' ∧ int_shifted 2 c entry entry'.
Proof.
  intros Hc (d & b & x & x' & y & y' & -> & Hd & Hx & Hax & Hy & Hay & ->)%loop_body_Ok.
  unfold bool_shifted, int_shifted. simpl. rewrite Hd, dict_get_set_eq.
  destruct Hc as [-> | ->].
  - rewrite dict_get_set_ne, dict_get_set_eq, Hx by done.
    split; intros ? [= ->]; simpl in Hax; by injection Hax as <-.
  - rewrite dict_get_set_eq, Hy.
    split; intros ? [= ->]; simpl in Hay; by injection Hay as <-.
Qed.

(** X5. On every document the loop gets through, the frame ids stay as they
    are and in order, a boolean [x] or [y] becomes the integer [3] (for
    [true]) or [2] (for [false]), and an integer one becomes two more. *)
Theorem booleans_become_integers data :
  fixable data = true →
  ∃ data' entries entries',
    fix_padding data = Ok data' ∧
    frames_of data = Some entries ∧ frames_of data' = Some entries' ∧
    Forall2 (fun a a' =>
               a.1 = a'.1 ∧
               bool_shifted 2 "x" a.2 a'.2 ∧ bool_shifted 2 "y" a.2 a'.2 ∧
               int_shifted 2 "x" a.2 a'.2 ∧ int_shifted 2 "y" a.2 a'.2)
      entries entries'.
Proof.
  intros [data' Hfix]%fix_padding_fixable.
  pose proof Hfix as (d & es & es' & -> & Hd & Hfor & ->)%fix_padding_Ok.
  exists (VDict (dict_set d "frames" (VDict es'))), es, es'.
  simpl. rewrite Hd, dict_get_set_eq. repeat split; try done.
  apply for_values_Ok in Hfor. eapply Forall2_impl; [exact Hfor|].
  intros a a' [Hk Hb].
  destruct (loop_body_bool _ _ "x" (or_introl eq_refl) Hb) as [? ?].
  destruct (loop_body_bool _ _ "y" (or_intror eq_refl) Hb) as [? ?].
  by repeat split.
Qed.

End LoopErrors.

(** ** More on the loop: repeating it, and undoing it *)

Section LoopAlgebra.

Implicit Types (d b : dict) (k c : string) (v : value).

Lemma int_shifted_step (i : Z) c (e e1 e2 : value) :
  shifted 2 c e e1 → int_shifted i c e1 e2 → int_shifted (2 + i) c e e2.
Proof.
  intros (v & v' & Hv & Hp & Hv1) Hi m Hm.
  rewrite Hm in Hv. injection Hv as <-. simpl in Hp. injection Hp as <-.
  rewrite (Hi _ Hv1). do 2 f_equal. lia.
Qed.

(** X6. [n] corrections in a row of a valid Atlas Document all go through,
    keep the frame ids and their order, and leave every integer coordinate
    exactly [2 * n] higher. *)
Theorem n_corrections_shift_by_2n (n : nat) data :
  valid_atlas data = true →
  ∃ data_n entries entries_n,
    fix_padding_n n data = Ok data_n ∧ valid_atlas data_n = true ∧
    frames_of data = Some entries ∧ frames_of data_n = Some entries_n ∧
    Forall2 (fun a a' =>
               a.1 = a'.1 ∧
               int_shifted (2 * Z.of_nat n) "x" a.2 a'.2 ∧
               int_shifted (2 * Z.of_nat n) "y" a.2 a'.2)
      entries entries_n.
Proof.
  revert data. induction n as [|n IH]; intros data Hv.
  - destruct (fix_padding_valid data Hv) as (_ & es & _ & _ & _ & Hes & _).
    exists data, es, es. repeat split; try done.
    apply Forall_Forall2_diag, Forall_forall. intros a _.
    repeat split; intros m Hm; rewrite Hm; do 2 f_equal; lia.
  - destruct (fix_padding_valid data Hv) as (data1 & es & es1 & Hfix & Hv1 & Hes & Hes1 & Hsh).
    destruct (IH data1 Hv1) as (data_n & es1' & es_n & Hn & Hvn & Hes1' & Hesn & Hshn).
    assert (es1' = es1) as -> by congruence.
    exists data_n, es, es_n. simpl. rewrite Hfix. simpl. repeat split; try done.
    eapply Forall2_impl; [exact (Forall2_compose _ _ _ _ _ Hsh Hshn)|].
    intros a a2 (a1 & (Hk & Hx & Hy) & (Hk' & Hx' & Hy')).
    replace (2 * Z.of_nat (S n)) with (2 + 2 * Z.of_nat n) by lia.
    split; [congruence|]. split; by eapply int_shifted_step.
Qed.

(** Two dictionaries that become equal when the same present key is stored
    into were equal but for the value under that key. *)
Lemma dict_set_inj d1 d2 k u1 u2 v1 v2 :
  dict_get d1 k = Some u1 → dict_get d2 k = Some u2 →
  dict_set d1 k v1 = dict_set d2 k v2 →
  v1 = v2 ∧ ∀ u, dict_set d1 k u = dict_set d2 k u.
Proof.
  revert d2. induction d1 as [|[k1 w1] d1 IH]; intros [|[k2 w2] d2]; simpl; try done.
  destruct (String.eqb k k1) eqn:E1, (String.eqb k k2) eqn:E2.
  - intros _ _ [= -> -> ->]. done.
  - intros _ _ [= -> _ _]. congruence.
  - intros _ _ [= -> _ _]. congruence.
  - intros H1 H2 [= -> -> Hrest]. destruct (IH d2 H1 H2 Hrest) as [Hv Hall].
    split; [done|]. intros u. by rewrite Hall.
Qed.

Lemma entry_ok_int_inv d b x y :
  entry_ok is_int (VDict d) = true → dict_get d "frame" = Some (VDict b) →
  dict_get b "x" = Some x → dict_get b "y" = Some y →
  ∃ n m, x = VInt n ∧ y = VInt m.
Proof.
  simpl. intros Hok Hd Hx Hy. rewrite Hd in Hok. simpl in Hok. rewrite Hx, Hy in Hok.
  apply andb_true_iff in Hok as [Hix Hiy].
  destruct x; try done. destruct y; try done. eauto.
Qed.

(** Two entries with integer coordinates that a turn maps to the same entry
    are the same entry. *)
Lemma loop_body_inj e1 e2 r :
  entry_ok is_int e1 = true → entry_ok is_int e2 = true →
  loop_body e1 = Ok r → loop_body e2 = Ok r → e1 = e2.
Proof.
  intros H1 H2
    (d1 & b1 & x1 & x1' & y1 & y1' & -> & Hd1 & Hx1 & Hax1 & Hy1 & Hay1 & ->)%loop_body_Ok
    (d2 & b2 & x2 & x2' & y2 & y2' & -> & Hd2 & Hx2 & Hax2 & Hy2 & Hay2 & Heq)%loop_body_Ok.
  destruct (entry_ok_int_inv _ _ _ _ H1 Hd1 Hx1 Hy1) as (n1 & m1 & -> & ->).
  destruct (entry_ok_int_inv _ _ _ _ H2 Hd2 Hx2 Hy2) as (n2 & m2 & -> & ->).
  simpl in Hax1, Hay1, Hax2, Hay2.
  injection Hax1 as <-. injection Hay1 as <-. injection Hax2 as <-. injection Hay2 as <-.
  injection Heq as Heq.
  destruct (dict_set_inj _ _ _ _ _ _ _ Hd1 Hd2 Heq) as [[= HB] Hd].
  assert (Hy1' : dict_get (dict_set b1 "x" (VInt (n1 + OFFSET))) "y" = Some (VInt m1))
    by by rewrite dict_get_set_ne.
  assert (Hy2' : dict_get (dict_set b2 "x" (VInt (n2 + OFFSET))) "y" = Some (VInt m2))
    by by rewrite dict_get_set_ne.
  destruct (dict_set_inj _ _ _ _ _ _ _ Hy1' Hy2' HB) as [[= Hm] Hby].
  assert (m2 = m1) as -> by lia.
  specialize (Hby (VInt m1)).
  rewrite (dict_set_same _ _ _ Hy1'), (dict_set_same _ _ _ Hy2') in Hby.
  destruct (dict_set_inj _ _ _ _ _ _ _ Hx1 Hx2 Hby) as [[= Hn] Hbx].
  assert (n2 = n1) as -> by lia.
  specialize (Hbx (VInt n1)).
  rewrite (dict_set_same _ _ _ Hx1), (dict_set_same _ _ _ Hx2) in Hbx. subst b2.
  specialize (Hd (VDict b1)).
  rewrite (dict_set_same _ _ _ Hd1), (dict_set_same _ _ _ Hd2) in Hd. by subst d2.
Qed.

Lemma for_values_inj (es1 es2 es' : dict) :
  forallb (fun kv => entry_ok is_int kv.2) es1 = true →
  forallb (fun kv => entry_ok is_int kv.2) es2 = true →
  for_values loop_body es1 = Ok es' → for_values loop_body es2 = Ok es' → es1 = es2.
Proof.
  intros H1 H2 F1%for_values_Ok F2%for_values_Ok. revert es2 H2 F2.
  induction F1 as [|[k1 v1] [k' v'] l1 l' [Hk1 Hb1] _ IH]; intros es2 H2 F2;
    inversion F2 as [|[k2 v2] ? l2 ? [Hk2 Hb2] F2']; subst; [done|].
  simpl in *. apply andb_true_iff in H1 as [Hv1 Hl1], H2 as [Hv2 Hl2].
  rewrite (loop_body_inj v1 v2 v' Hv1 Hv2 Hb1 Hb2), (IH Hl1 l2 Hl2 F2'). congruence.
Qed.

(** X7. On documents with integer coordinates the correction loses
    nothing: two such documents that the loop maps to the same document are
    the same document. *)
Theorem integer_atlas_lossless data1 data2 data' :
  int_atlas data1 = true → int_atlas data2 = true →
  fix_padding data1 = Ok data' → fix_padding data2 = Ok data' →
  data1 = data2.
Proof.
  unfold int_atlas.
  intros H1 H2 (d1 & es1 & es1' & -> & Hd1 & Hf1 & ->)%fix_padding_Ok
               (d2 & es2 & es2' & -> & Hd2 & Hf2 & Heq)%fix_padding_Ok.
  simpl in H1, H2. rewrite Hd1 in H1. rewrite Hd2 in H2.
  injection Heq as Heq.
  destruct (dict_set_inj _ _ _ _ _ _ _ Hd1 Hd2 Heq) as [[= ->] Hd].
  assert (es2 = es1) as -> by (symmetry; by eapply for_values_inj).
  specialize (Hd (VDict es1)).
  rewrite (dict_set_same _ _ _ Hd1), (dict_set_same _ _ _ Hd2) in Hd. by subst d2.
Qed.

End LoopAlgebra.

(** ** More on the run: how it fails *)

Section RunErrors.

Context {py : Interpreter}.

(** X8. A run that fails raises the exception of the step that failed,
    unchanged: [FileNotFoundError] for a missing input, with the world as
    it was; what [json.load] or the loop raised, with the input opened and
    read and nothing else done; what [json.dump] raised, or else what
    [print] raised, with the output file opened and holding what
    [json.dump] got out, and nothing printed.  A run succeeds only on a
    document the loop gets through, rendered in full, with the line
    printed. *)
Theorem errors_pass_through (w : World) :
  match main w with
  | (Ok _, w') => admits addable w = true ∧ completes w = true
  | (Raise e, w') =>
      (files w !! "collectables.json" = None ∧
       e = FileNotFoundError "collectables.json" ∧ w' = w) ∨
      (∃ text,
         files w !! "collectables.json" = Some text ∧ w' = after_read w ∧
         (json_loads (environ w) text = Raise e ∨
          ∃ data, json_loads (environ w) text = Ok data ∧ fix_padding data = Raise e)) ∨
      (∃ text data data',
         files w !! "collectables.json" = Some text ∧
         json_loads (environ w) text = Ok data ∧ fix_padding data = Ok data' ∧
         w' = after_write (json_dumps (environ w) data' 2).1 w ∧
         ((json_dumps (environ w) data' 2).2 = Some e ∨
          (json_dumps (environ w) data' 2).2 = None ∧
          stdout_error (environ w) message = Some e))
  end.
Proof.
  unfold admits, completes, ending. rewrite main_run.
  destruct (files w !! "collectables.json") as [text|] eqn:Hin; [|by left].
  destruct (json_loads (environ w) text) as [data|e] eqn:Hload;
    [|right; left; by eauto].
  destruct (fix_padding data) as [data'|e] eqn:Hfix;
    [|right; left; exists text; by eauto 10].
  destruct (json_dumps (environ w) data' 2) as [out [e|]] eqn:Hdump.
  - right; right. exists text, data, data'. rewrite Hdump. by eauto 10.
  - cbn [snd]. destruct (stdout_error (environ w) message) as [e|] eqn:Hprint.
    + right; right. exists text, data, data'. rewrite Hdump. by eauto 10.
    + split; [|done]. apply fix_padding_fixable. by eauto.
Qed.

(** X9. A document the run accepts is corrected into one the loop accepts
    again.  After a run that succeeded and whose output reads back as the
    document written, a second run on that output gets through the loop,
    whatever the coordinates were: it writes what [json.dump] gets out of
    the document corrected twice, a valid Atlas Document, and ends as
    [json.dump] and [print] end on it, the confirmation printed once more
    if it succeeds. *)
Theorem second_run_passes_the_loop (w : World) (text : string) (data data1 : value) :
  files w !! "collectables.json" = Some text →
  json_loads (environ w) text = Ok data →
  fix_padding data = Ok data1 →
  ending (environ w) data1 = Ok () →
  json_loads (environ w) (json_dumps (environ w) data1 2).1 = Ok data1 →
  ∃ w1 data2,
    main w = (Ok (), w1) ∧
    fix_padding data1 = Ok data2 ∧ valid_atlas data2 = true ∧
    (main (feed_back w1)).1 = ending (environ w) data2 ∧
    files (main (feed_back w1)).2 !! "collectables_padded.json"
    = Some (json_dumps (environ w) data2 2).1 ∧
    stdout (main (feed_back w1)).2
    = (stdout w ++ message :: match ending (environ w) data2 with
                               | Ok _ => [message]
                               | Raise _ => []
                               end)%list.
Proof.
  intros Hin Hload Hfix Hend Hback.
  pose proof (fix_padding_Ok_valid _ _ Hfix) as Hv1.
  destruct (proj1 (fix_padding_fixable data1) (valid_atlas_fixable _ Hv1)) as [data2 Hfix2].
  pose proof (fix_padding_Ok_valid _ _ Hfix2) as Hv2.
  set (out := (json_dumps (environ w) data1 2).1) in *.
  assert (Hrun : main w = (Ok (), after_run out w)).
  { rewrite main_run, Hin, Hload, Hfix. unfold ending in Hend. subst out.
    destruct (json_dumps (environ w) data1 2) as [o [e|]]; [done|].
    by destruct (stdout_error (environ w) message). }
  set (w1 := after_run out w) in *.
  assert (Hw1 : feed_back w1 = set_file "collectables.json" out w1).
  { unfold feed_back, w1. cbn [after_run files]. by rewrite lookup_insert_eq. }
  assert (Henv : environ (feed_back w1) = environ w) by by rewrite Hw1.
  assert (Hso : stdout (feed_back w1) = (stdout w ++ [message])%list) by by rewrite Hw1.
  assert (Hfb : files (feed_back w1) !! "collectables.json" = Some out).
  { rewrite Hw1. cbn [set_file files]. apply lookup_insert_eq. }
  assert (Hread : json_loads (environ (feed_back w1)) out = Ok data1) by by rewrite Henv.
  destruct (main_after_loop (feed_back w1) out data1 data2 Hfb Hread Hfix2)
    as (Hend2 & Hfiles2 & Hout2 & _).
  rewrite Henv in Hend2, Hfiles2, Hout2.
  exists w1, data2. split; [done|]. split; [done|]. split; [done|]. split; [done|]. split.
  - rewrite Hfiles2. apply lookup_insert_eq.
  - rewrite Hout2, Hso. destruct (ending (environ w) data2); [|done].
    by rewrite <- app_assoc.
Qed.

End RunErrors.

(** ** These properties on the sample documents *)

Section More_on_samples.

Import Samples.

Lemma fix_padding_raises_only_witness : KeyError "y" ∈ loop_errors.
Proof. refine (fix_padding_raises_only mixed_atlas (KeyError "y") _). reflexivity. Defined.

(** The entry after the one that lacks [y] is not even an object. *)
Lemma first_bad_entry_decides_witness :
  fix_padding
    (VDict [("frames",
             VDict ([("coin.png", VDict [("frame", box (VInt 0) (VInt 34))])]
                    ++ ("gem.png", VDict [("frame", VDict [("x", VInt 5); ("w", VInt 16)])])
                    :: [("late.png", VNone)])%list)])
  = Raise (KeyError "y").
Proof.
  refine (first_bad_entry_decides
            [("frames",
              VDict ([("coin.png", VDict [("frame", box (VInt 0) (VInt 34))])]
                     ++ ("gem.png", VDict [("frame", VDict [("x", VInt 5); ("w", VInt 16)])])
                     :: [("late.png", VNone)])%list)]
            [("coin.png", VDict [("frame", box (VInt 0) (VInt 34))])]
            [("late.png", VNone)]
            "gem.png" (VDict [("frame", VDict [("x", VInt 5); ("w", VInt 16)])])
            (KeyError "y") _ _ _);
    reflexivity.
Defined.

Lemma corrected_is_valid_witness :
  valid_atlas bool_atlas_fixed = true ∧ ∃ data'', fix_padding bool_atlas_fixed = Ok data''.
Proof. refine (corrected_is_valid bool_atlas bool_atlas_fixed _). reflexivity. Defined.

Lemma booleans_become_integers_witness :
  ∃ data' entries entries',
    fix_padding bool_atlas = Ok data' ∧
    frames_of bool_atlas = Some entries ∧ frames_of data' = Some entries' ∧
    Forall2 (fun a a' =>
               a.1 = a'.1 ∧
               bool_shifted 2 "x" a.2 a'.2 ∧ bool_shifted 2 "y" a.2 a'.2 ∧
               int_shifted 2 "x" a.2 a'.2 ∧ int_shifted 2 "y" a.2 a'.2)
      entries entries'.
Proof. refine (booleans_become_integers bool_atlas _). reflexivity. Defined.

Lemma n_corrections_shift_by_2n_witness :
  ∃ data_n entries entries_n,
    fix_padding_n 3 atlas = Ok data_n ∧ valid_atlas data_n = true ∧
    frames_of atlas = Some entries ∧ frames_of data_n = Some entries_n ∧
    Forall2 (fun a a' =>
               a.1 = a'.1 ∧
               int_shifted (2 * Z.of_nat 3) "x" a.2 a'.2 ∧
               int_shifted (2 * Z.of_nat 3) "y" a.2 a'.2)
      entries entries_n.
Proof. refine (n_corrections_shift_by_2n 3 atlas _). reflexivity. Defined.

Lemma integer_atlas_lossless_witness : atlas = atlas.
Proof.
  refine (integer_atlas_lossless atlas atlas atlas_fixed _ _ _ _); reflexivity.
Defined.

(** Two runs on a document with boolean coordinates. *)
Lemma second_run_passes_the_loop_witness :
  ∃ w1 data2,
    main (py := CPython.python) (world_of (text_of bool_atlas)) = (Ok (), w1) ∧
    fix_padding bool_atlas_fixed = Ok data2 ∧ valid_atlas data2 = true ∧
    (main (py := CPython.python) (feed_back w1)).1
    = ending (py := CPython.python) (environ (world_of (text_of bool_atlas))) data2 ∧
    files (main (py := CPython.python) (feed_back w1)).2 !! "collectables_padded.json"
    = Some (json_dumps (Interpreter := CPython.python)
              (environ (world_of (text_of bool_atlas))) data2 2).1 ∧
    stdout (main (py := CPython.python) (feed_back w1)).2
    = (stdout (world_of (text_of bool_atlas))
       ++ message :: match ending (py := CPython.python)
                             (environ (world_of (text_of bool_atlas))) data2 with
                     | Ok _ => [message]
                     | Raise _ => []
                     end)%list.
Proof.
  refine (second_run_passes_the_loop (py := CPython.python)
            (world_of (text_of bool_atlas)) (text_of bool_atlas)
            bool_atlas bool_atlas_fixed _ _ _ _ _);
    vm_compute; reflexivity.
Defined.

End More_on_samples.
